(** * elysia-discord: a shallow embedding of the webhook plugin

    The development follows the layout of the repository:

    - [JS]              the fragment of JavaScript data the code handles
                        (UTF-16 strings, JSON-like values, thrown values);
    - [Runtime]         the collaborators the code calls but does not define
                        (signature verifier, JSON codec, clock rendering);
    - [Errors]          src/errors/index.ts;
    - [DiscordLogger]   src/logger (the console logger);
    - [Effects]         the trace/exception monad in which the stateful code
                        is written;
    - [DiscordHelper]   src/core/discord-helper.ts (the event router);
    - [Plugin]          src/plugin/elysia-discord.ts (configuration check,
                        request hook, derive stage);
    - observations on runs, and [Demo], a concrete runtime with concrete
      requests, interactions and callbacks;
    - the theorems about the logger, the plugin and the router, and
      concrete runs. *)

From Stdlib Require Import ZArith NArith List String Ascii Bool Lia DecimalString.
From stdpp Require Import base option list gmap strings.
Import ListNotations.

Local Open Scope Z_scope.
Set Warnings "-register-all,-abstract-large-number".

(* ===================================================================== *)
(** * JavaScript data *)
(* ===================================================================== *)

Module JS.

(** A JavaScript string is a sequence of UTF-16 code units; [length],
    [substring] and [split] all count code units. *)
Definition jsstring : Type := list N.

(** ASCII literals of the source text. *)
Definition js (s : string) : jsstring := map N_of_ascii (list_ascii_of_string s).

(** The double-quote character. *)
Definition quote : jsstring := [34%N].

(** [`${n}`] for an integral number. *)
Definition num_to_string (z : Z) : jsstring := js (NilZero.string_of_int (Z.to_int z)).

(** Classes of [Error] instances the code creates or tests for.  [Error_]
    stands for the built-in [Error] and any subclass not declared in
    src/errors (TypeError, SyntaxError, the platform library's errors). *)
Inductive ErrorClass : Type :=
| Error_
| DiscordError
| SignatureVerificationError
| DiscordInteractionError
| RateLimitError
| ConfigurationError
| InteractionNotRepliableError.

(** An [Error] instance with the own properties the classes of src/errors
    declare; a property a class does not declare is [None] (undefined). *)
Record ErrorObject : Type := mkError {
  cls : ErrorClass;
  name : jsstring;
  message : jsstring;
  stack : option jsstring;
  code : option jsstring;
  field : option jsstring;
  interactionId : option jsstring;
  interactionType : option jsstring;
  retryAfter : option Z
}.

(** The values that flow through the plugin: the JSON data model (what
    [JSON.parse] returns and what the code builds as object literals),
    [undefined], and [Error] instances (what is thrown and caught).
    Numbers are the integral ones; the only numeric tests in the source are
    [=== 1] and truthiness. Functions, symbols and cyclic objects are not
    part of this universe. *)
Inductive value : Type :=
| VUndefined
| VNull
| VBool (b : bool)
| VNum (n : Z)
| VStr (s : jsstring)
| VArr (items : list value)
| VObj (props : list (jsstring * value))
| VErr (e : ErrorObject).

(** JavaScript truthiness ([if (x)], [!x], [x || y]). *)
Definition truthy (v : value) : bool :=
  match v with
  | VUndefined | VNull => false
  | VBool b => b
  | VNum n => negb (n =? 0)
  | VStr s => negb (bool_decide (s = []))
  | VArr _ | VObj _ | VErr _ => true
  end.

(** Truthiness of an optional string ([string | null | undefined]). *)
Definition truthy_str (o : option jsstring) : bool :=
  match o with
  | Some (_ :: _) => true
  | _ => false
  end.

(** Completion of a computation: a normal value or a thrown one. *)
Inductive result (A : Type) : Type :=
| Ok (a : A)
| Throw (e : value).
Arguments Ok {A} a.
Arguments Throw {A} e.

Fixpoint lookup_prop (props : list (jsstring * value)) (k : jsstring) : option value :=
  match props with
  | [] => None
  | (k', v) :: rest => if bool_decide (k' = k) then Some v else lookup_prop rest k
  end.

(** The [TypeError] raised by a property read on [null] or [undefined]. *)
Definition TypeError (msg : jsstring) : value :=
  VErr (mkError Error_ (js "TypeError") msg None None None None None None).

(** Property read [v.k] for the keys the hook reads from a parsed payload
    ([type], [id]): it throws on [null] and [undefined], finds own
    properties of objects, and is [undefined] on the other values. *)
Definition get_prop (v : value) (k : jsstring) : result value :=
  match v with
  | VUndefined | VNull =>
      Throw (TypeError (js "Cannot read properties of null or undefined"))
  | VObj props => Ok (default VUndefined (lookup_prop props k))
  | _ => Ok VUndefined
  end.

(** [v === 1]. *)
Definition strict_eq_num (v : value) (n : Z) : bool :=
  match v with
  | VNum m => m =? n
  | _ => false
  end.

(** [s.split("\n")]: an empty string splits into one empty line. *)
Fixpoint split_lines (s : jsstring) : list jsstring :=
  match s with
  | [] => [[]]
  | c :: rest =>
      if (c =? 10)%N then [] :: split_lines rest
      else match split_lines rest with
           | l :: ls => (c :: l) :: ls
           | [] => [[c]]
           end
  end.

(** [lines.join("\n")]. *)
Fixpoint join_lines (lines : list jsstring) : jsstring :=
  match lines with
  | [] => []
  | [l] => l
  | l :: ls => l ++ 10%N :: join_lines ls
  end.

(** White space and line terminators as [String.prototype.trim] sees them. *)
Definition is_space (c : N) : bool :=
  ((9 <=? c) && (c <=? 13) || (c =? 32) || (c =? 160) || (c =? 5760)
   || (8192 <=? c) && (c <=? 8202) || (c =? 8232) || (c =? 8233)
   || (c =? 8239) || (c =? 8287) || (c =? 12288) || (c =? 65279))%N.

Fixpoint trim_start (s : jsstring) : jsstring :=
  match s with
  | c :: rest => if is_space c then trim_start rest else s
  | [] => []
  end.

(** [s.trim()]. *)
Definition trim (s : jsstring) : jsstring :=
  rev (trim_start (rev (trim_start s))).

(** [s.substring(0, n)] for [0 <= n]. *)
Definition substring0 (n : nat) (s : jsstring) : jsstring := take n s.

(** [a.slice(from, to)] for [0 <= from <= to]. *)
Definition slice {A} (from to : nat) (a : list A) : list A :=
  take (to - from)%nat (drop from a).

End JS.
Export JS.

#[global] Arguments js : simpl never.
#[global] Arguments num_to_string : simpl never.

(* ===================================================================== *)
(** * Collaborators *)
(* ===================================================================== *)

(** What the code imports or calls and does not define itself.  Each is a
    black box with the contract its call sites rely on. *)
Class Runtime : Type := {
  (** [verifyKey(body, signature, timestamp, publicKey)] of the
      discord-interactions package: a boolean, or a thrown value. *)
  verifyKey : jsstring -> jsstring -> jsstring -> jsstring -> result bool;
  (** [JSON.parse(body)]: the parsed value, or a thrown [SyntaxError]. *)
  JSON_parse : jsstring -> result value;
  (** [JSON.stringify(data, null, 2)] on a truthy value of the universe
      above, where it returns a string (it returns [undefined] or throws
      only on values outside that universe). *)
  JSON_stringify : value -> jsstring;
  (** [String(e)]. *)
  String_ : value -> jsstring;
  (** [new Date(t).toISOString()]. *)
  toISOString : Z -> jsstring;
  (** [process.stdout.isTTY]. *)
  isTTY : bool;
  (** [Math.random().toString(36).substring(2, 9)]. *)
  randomId : jsstring;
  (** The stack the engine records when an error with the given message
      is constructed. *)
  captureStackTrace : jsstring -> option jsstring;
  (** The reverse mapping [InteractionType[n]] of the platform library's
      numeric enumeration. *)
  InteractionType : Z -> option jsstring
}.

(* ===================================================================== *)
(** * src/errors/index.ts *)
(* ===================================================================== *)

Module Errors.
Section WithRuntime.
Context `{Runtime}.

(** [class DiscordError extends Error]. *)
Definition new_DiscordError (message : jsstring) (code : option jsstring) : ErrorObject :=
  {| cls := DiscordError; name := js "DiscordError"; message := message;
     stack := captureStackTrace message; code := code; field := None;
     interactionId := None; interactionType := None; retryAfter := None |}.

(** [class SignatureVerificationError extends DiscordError]; the message
    defaults when the argument is undefined. *)
Definition new_SignatureVerificationError (message : option jsstring) : ErrorObject :=
  let super :=
    new_DiscordError (default (js "Discord signature verification failed") message)
                     (Some (js "SIGNATURE_VERIFICATION_FAILED")) in
  {| cls := SignatureVerificationError; name := js "SignatureVerificationError";
     message := JS.message super; stack := stack super; code := code super;
     field := None; interactionId := None; interactionType := None;
     retryAfter := None |}.

(** [class DiscordInteractionError extends DiscordError]. *)
Definition new_DiscordInteractionError
    (message : jsstring) (interactionId interactionType : option jsstring) : ErrorObject :=
  let super := new_DiscordError message (Some (js "INTERACTION_ERROR")) in
  {| cls := DiscordInteractionError; name := js "DiscordInteractionError";
     message := JS.message super; stack := stack super; code := code super;
     field := None; interactionId := interactionId;
     interactionType := interactionType; retryAfter := None |}.

(** [class RateLimitError extends DiscordError]. *)
Definition new_RateLimitError (message : option jsstring) (retryAfter : option Z) : ErrorObject :=
  let super :=
    new_DiscordError (default (js "Rate limit exceeded") message)
                     (Some (js "RATE_LIMIT_EXCEEDED")) in
  {| cls := RateLimitError; name := js "RateLimitError";
     message := JS.message super; stack := stack super; code := code super;
     field := None; interactionId := None; interactionType := None;
     retryAfter := retryAfter |}.

(** [class ConfigurationError extends DiscordError]. *)
Definition new_ConfigurationError (message : jsstring) (field : option jsstring) : ErrorObject :=
  let super := new_DiscordError message (Some (js "INVALID_CONFIGURATION")) in
  {| cls := ConfigurationError; name := js "ConfigurationError";
     message := JS.message super; stack := stack super; code := code super;
     field := field; interactionId := None; interactionType := None;
     retryAfter := None |}.

(** [class InteractionNotRepliableError extends DiscordInteractionError]:
    [interactionType || "unknown"] in the message, no interaction id. *)
Definition new_InteractionNotRepliableError (interactionType : option jsstring) : ErrorObject :=
  let shown := if truthy_str interactionType
               then default [] interactionType else js "unknown" in
  let super :=
    new_DiscordInteractionError
      (js "Interaction of type " ++ quote ++ shown ++ quote ++ js " is not repliable")
      None interactionType in
  {| cls := InteractionNotRepliableError; name := js "InteractionNotRepliableError";
     message := JS.message super; stack := stack super; code := code super;
     field := None; interactionId := JS.interactionId super;
     interactionType := JS.interactionType super; retryAfter := None |}.

End WithRuntime.

(** The [extends] clauses. *)
Definition superclass (c : ErrorClass) : option ErrorClass :=
  match c with
  | Error_ => None
  | DiscordError => Some Error_
  | SignatureVerificationError | DiscordInteractionError
  | RateLimitError | ConfigurationError => Some DiscordError
  | InteractionNotRepliableError => Some DiscordInteractionError
  end.

Definition ErrorClass_eqb (a b : ErrorClass) : bool :=
  match a, b with
  | Error_, Error_ | DiscordError, DiscordError
  | SignatureVerificationError, SignatureVerificationError
  | DiscordInteractionError, DiscordInteractionError
  | RateLimitError, RateLimitError
  | ConfigurationError, ConfigurationError
  | InteractionNotRepliableError, InteractionNotRepliableError => true
  | _, _ => false
  end.

(** [c] is [d] or one of its subclasses; the hierarchy is three deep. *)
Definition subclass_of (c d : ErrorClass) : bool :=
  ErrorClass_eqb c d
  || match superclass c with
     | Some c1 =>
         ErrorClass_eqb c1 d
         || match superclass c1 with
            | Some c2 =>
                ErrorClass_eqb c2 d
                || match superclass c2 with
                   | Some c3 => ErrorClass_eqb c3 d
                   | None => false
                   end
            | None => false
            end
     | None => false
     end.

(** [v instanceof C]. *)
Definition instanceof (v : value) (c : ErrorClass) : bool :=
  match v with
  | VErr e => subclass_of (cls e) c
  | _ => false
  end.

End Errors.

(* ===================================================================== *)
(** * src/logger: the console logger *)
(* ===================================================================== *)

(** One call of [console.log], [console.warn] or [console.error]. *)
Inductive console : Type :=
| console_log (text : jsstring)
| console_warn (text : jsstring)
| console_error (text : jsstring).

Definition console_text (c : console) : jsstring :=
  match c with
  | console_log t | console_warn t | console_error t => t
  end.

Module DiscordLogger.

(** The instance state: [private enabled: boolean]. *)
Record t : Type := new { enabled : bool }.

(** The ANSI escape sequences of [private readonly colors]. *)
Module colors.
Definition esc (s : string) : jsstring := 27%N :: js s.
Definition reset := esc "[0m".
Definition bright := esc "[1m".
Definition dim := esc "[2m".
Definition red := esc "[31m".
Definition green := esc "[32m".
Definition yellow := esc "[33m".
Definition blue := esc "[34m".
Definition magenta := esc "[35m".
Definition cyan := esc "[36m".
Definition white := esc "[37m".
End colors.

(** The box-drawing glyphs of the tree prefixes, one code unit each. *)
Definition glyph_branch : jsstring := [9500; 9472]%N.   (* U+251C U+2500 *)
Definition glyph_last : jsstring := [9492; 9472]%N.     (* U+2514 U+2500 *)
Definition glyph_rule : N := 9472%N.                    (* U+2500 *)
Definition glyph_heavy : N := 9473%N.                   (* U+2501 *)

Definition maxDataLength : nat := 5000.

(** The marker appended to a truncated dump. *)
Definition truncation_marker : jsstring := 10%N :: js "... (truncated)".

Section WithRuntime.
Context `{Runtime}.

(** [getTimestamp()] at clock reading [now]. *)
Definition getTimestamp (now : Z) : jsstring := toISOString now.

Definition formatLog (now : Z) (level : string) (color message : jsstring) : jsstring :=
  if isTTY then
    colors.dim ++ js "[" ++ getTimestamp now ++ js "]" ++ colors.reset ++ js " "
    ++ color ++ js "[" ++ js level ++ js "]" ++ colors.reset ++ js " "
    ++ colors.magenta ++ js "[DISCORD]" ++ colors.reset ++ js " " ++ message
  else
    js "[" ++ getTimestamp now ++ js "] [" ++ js level ++ js "] [DISCORD] " ++ message.

(** The text [logData] splits into lines: the serialization, cut after
    [maxDataLength] code units when it is longer. *)
Definition stringified (data : value) : jsstring :=
  let stringified := JSON_stringify data in
  if (maxDataLength <? length stringified)%nat
  then substring0 maxDataLength stringified ++ truncation_marker
  else stringified.

Definition logData (this : t) (data : value) : list console :=
  if negb (enabled this) then []
  else
    let lines := split_lines (stringified data) in
    imap (fun index line =>
            let isLast := bool_decide (index = (length lines - 1)%nat) in
            let prefix := js "  " ++ (if isLast then glyph_last else glyph_branch) in
            console_log (colors.dim ++ prefix ++ colors.reset ++ js " " ++ line))
         lines.

Definition info (this : t) (now : Z) (message : jsstring) (data : value) : list console :=
  if negb (enabled this) then []
  else console_log (formatLog now "INFO" colors.blue message)
       :: (if truthy data then logData this data else []).

Definition success (this : t) (now : Z) (message : jsstring) (data : value) : list console :=
  if negb (enabled this) then []
  else console_log (formatLog now "SUCCESS" colors.green message)
       :: (if truthy data then logData this data else []).

Definition warn (this : t) (now : Z) (message : jsstring) (data : value) : list console :=
  if negb (enabled this) then []
  else console_warn (formatLog now "WARN" colors.yellow message)
       :: (if truthy data then logData this data else []).

Definition error (this : t) (now : Z) (message : jsstring) (error : value) : list console :=
  if negb (enabled this) then []
  else
    console_error (formatLog now "ERROR" colors.red message)
    :: (if truthy error then
          match error with
          | VErr e =>
              console_error (js "  " ++ colors.red ++ glyph_branch ++ colors.reset
                             ++ js " " ++ JS.message e)
              :: (if truthy_str (stack e) then
                    let stackLines := slice 1 4 (split_lines (default [] (stack e))) in
                    imap (fun i line =>
                            let prefix :=
                              if bool_decide (i = (length stackLines - 1)%nat)
                              then glyph_last else glyph_branch in
                            console_error (js "  " ++ colors.dim ++ prefix
                                           ++ colors.reset ++ js " " ++ trim line))
                         stackLines
                  else [])
          | _ => logData this error
          end
        else []).

Definition debug (this : t) (now : Z) (message : jsstring) (data : value) : list console :=
  if negb (enabled this) then []
  else console_log (formatLog now "DEBUG" colors.magenta message)
       :: (if truthy data then logData this data else []).

Definition divider (this : t) : list console :=
  if negb (enabled this) then []
  else [console_log (colors.dim ++ replicate 80 glyph_rule ++ colors.reset)].

Definition section (this : t) (title : jsstring) : list console :=
  if negb (enabled this) then []
  else [console_log (10%N :: colors.bright ++ colors.cyan
                     ++ replicate 3 glyph_heavy ++ js " " ++ title ++ js " "
                     ++ replicate 3 glyph_heavy ++ colors.reset)].

End WithRuntime.

(** A call of one of the public operations, as recorded by its callers;
    an omitted optional argument is [VUndefined]. *)
Inductive call : Type :=
| Info (message : jsstring) (data : value)
| Success (message : jsstring) (data : value)
| Warn (message : jsstring) (data : value)
| Error (message : jsstring) (error : value)
| Debug (message : jsstring) (data : value)
| Divider
| Section_ (title : jsstring).

(** What the logger writes to the console for a call made at [now]. *)
Definition run `{Runtime} (this : t) (now : Z) (c : call) : list console :=
  match c with
  | Info m d => info this now m d
  | Success m d => success this now m d
  | Warn m d => warn this now m d
  | Error m e => error this now m e
  | Debug m d => debug this now m d
  | Divider => divider this
  | Section_ title => section this title
  end.

End DiscordLogger.

(* ===================================================================== *)
(** * The platform library's interaction objects and the callbacks *)
(* ===================================================================== *)

(** A promise, by how it settles: [settles_after] milliseconds from its
    creation, fulfilled ([Ok tt]) or rejected with a value. *)
Record Promise : Type := mkPromise {
  settles_after : N;
  settles_with : result unit
}.

(** The members of the platform library's [Interaction] that
    src/core/discord-helper.ts uses: two properties, the shape guards, and
    the four response calls, each given by the promise it returns for a
    payload. *)
Module Interaction.
Record t : Type := mk {
  type : Z;
  id : jsstring;
  isChatInputCommand : bool;
  isButton : bool;
  isStringSelectMenu : bool;
  isUserSelectMenu : bool;
  isRoleSelectMenu : bool;
  isChannelSelectMenu : bool;
  isModalSubmit : bool;
  isAutocomplete : bool;
  isRepliable : bool;
  reply : value -> Promise;
  deferReply : value -> Promise;
  editReply : value -> Promise;
  followUp : value -> Promise
}.
End Interaction.

(** [type InteractionHandler = (interaction) => void | Promise<void>]: a
    call returns nothing ([Ok None]), returns a promise, or throws before
    returning (a function that is not [async] can).  What a callback does
    on its own account (its console output, its calls back into the
    helper) is not recorded: a trace holds what the router itself does.
    A callback of this type cannot register callbacks or store a response
    while it runs, as one of the source can through the context; what is
    stated of a run of [handle] is therefore what it calls, logs and
    throws, not the helper it leaves. *)
Definition InteractionHandler : Type := Interaction.t -> result (option Promise).

(** The platform calls of the reply family. *)
Inductive platform_call : Type :=
| call_reply | call_deferReply | call_editReply | call_followUp.

(* ===================================================================== *)
(** * Effects *)
(* ===================================================================== *)

(** What the code does to the outside, in program order. *)
Inductive event : Type :=
| ELogger (now : Z) (c : DiscordLogger.call)       (* this.logger.<level>(...) *)
| EHandler (handler : InteractionHandler)          (* handler(this.interaction) *)
| EPlatform (c : platform_call) (payload : value)  (* interaction.reply(...) etc. *)
| ERequestText                                     (* request.text() *)
| EVerifyKey (body signature timestamp publicKey : jsstring)
| EJSONParse (body : jsstring).

(** The console output of a run, for the logger the code was given. *)
Definition console_of `{Runtime} (logger : DiscordLogger.t) (trace : list event) : list console :=
  flat_map (fun ev => match ev with
                      | ELogger now c => DiscordLogger.run logger now c
                      | _ => []
                      end) trace.

Module Effects.

(** The outside world: the events so far and the clock ([Date.now()]),
    which advances only while the code awaits. *)
Record World : Type := mkWorld { trace : list event; clock : Z }.

(** A computation over the world and a mutable object of type [S] (the
    helper instance, or the hook's context); mutations persist when the
    computation throws. *)
Definition M (S A : Type) : Type := World * S -> (World * S) * result A.

#[export] Instance M_ret {S} : MRet (M S) := fun A a s => (s, Ok a).

#[export] Instance M_bind {S} : MBind (M S) := fun A B f m s =>
  match m s with
  | (s', Ok a) => f a s'
  | (s', Throw e) => (s', Throw e)
  end.

Section Ops.
Context {S : Type}.

Definition throw {A} (e : value) : M S A := fun s => (s, Throw e).

(** [try { body } catch (e) { handler }]. *)
Definition try_catch {A} (body : M S A) (handler : value -> M S A) : M S A := fun s =>
  match body s with
  | (s', Ok a) => (s', Ok a)
  | (s', Throw e) => handler e s'
  end.

Definition emit (ev : event) : M S unit := fun '(w, s) =>
  (mkWorld (trace w ++ [ev]) (clock w), s, Ok tt).

Definition Date_now : M S Z := fun '(w, s) => (w, s, Ok (clock w)).

Definition this : M S S := fun '(w, s) => (w, s, Ok s).

Definition update (f : S -> S) : M S unit := fun '(w, s) => (w, f s, Ok tt).

(** [await p]: time passes until [p] settles; a rejection is thrown. *)
Definition await (p : Promise) : M S unit := fun '(w, s) =>
  (mkWorld (trace w) (clock w + Z.of_N (settles_after p)), s, settles_with p).

(** A call of a logger operation, stamped with the time it is made. *)
Definition log (c : DiscordLogger.call) : M S unit :=
  now ← Date_now; emit (ELogger now c).

End Ops.

(** The earliest rejection among promises: least settling time, the
    earlier position on a tie. *)
Fixpoint first_rejection (promises : list (option Promise)) : option (N * value) :=
  match promises with
  | [] => None
  | p :: rest =>
      let later := first_rejection rest in
      match p with
      | Some (mkPromise d (Throw e)) =>
          match later with
          | Some (d', e') => if (d' <? d)%N then Some (d', e') else Some (d, e)
          | None => Some (d, e)
          end
      | _ => later
      end
  end.

(** When the last of the promises settles; a non-promise counts as
    settled. *)
Definition last_settlement (promises : list (option Promise)) : N :=
  foldr (fun p acc => match p with
                      | Some q => N.max (settles_after q) acc
                      | None => acc
                      end) 0%N promises.

(** [Promise.all(promises)]: rejected as soon as one of them is, with its
    value; fulfilled once all are. *)
Definition Promise_all (promises : list (option Promise)) : Promise :=
  match first_rejection promises with
  | Some (d, e) => mkPromise d (Throw e)
  | None => mkPromise (last_settlement promises) (Ok tt)
  end.

(** Running a computation from an empty trace. *)
Definition run {S A} (m : M S A) (start : Z) (s : S) : (World * S) * result A :=
  m (mkWorld [] start, s).

End Effects.
Import Effects.

(* ===================================================================== *)
(** * src/core/discord-helper.ts: the event router *)
(* ===================================================================== *)

(** [message: { content?: string; embeds?: any[]; ephemeral?: boolean }]. *)
Module Message.
Record t : Type := mk {
  content : option jsstring;
  embeds : option (list value);
  ephemeral : option bool
}.

Definition optional {A} (inj : A -> value) (o : option A) : value :=
  match o with
  | Some a => inj a
  | None => VUndefined
  end.

(** The object itself, as a value. *)
Definition to_value (m : t) : value :=
  VObj [(js "content", optional VStr (content m));
        (js "embeds", optional VArr (embeds m));
        (js "ephemeral", optional VBool (ephemeral m))].

(** [{ content: message.content, embeds: message.embeds,
       ephemeral: message.ephemeral }], what [reply] and [followUp] send. *)
Definition payload (m : t) : value :=
  VObj [(js "content", optional VStr (content m));
        (js "embeds", optional VArr (embeds m));
        (js "ephemeral", optional VBool (ephemeral m))].

(** [{ content: message.content, embeds: message.embeds }], what
    [editReply] sends. *)
Definition edit_payload (m : t) : value :=
  VObj [(js "content", optional VStr (content m));
        (js "embeds", optional VArr (embeds m))].
End Message.

(** [options?: { ephemeral?: boolean }]. *)
Module DeferOptions.
Record t : Type := mk { ephemeral : option bool }.

Definition to_value (o : option t) : value :=
  match o with
  | Some o => VObj [(js "ephemeral", Message.optional VBool (ephemeral o))]
  | None => VUndefined
  end.

(** [options?.ephemeral]. *)
Definition ephemeral_of (o : option t) : option bool := o ≫= ephemeral.

(** [{ ephemeral: options?.ephemeral }], what [deferReply] sends. *)
Definition payload (o : option t) : value :=
  VObj [(js "ephemeral", Message.optional VBool (ephemeral_of o))].
End DeferOptions.

Module DiscordHelper.

(** The instance fields.  The constructor stores the interaction it is
    given as it is, so the record is generic in its representation [I];
    the operations are those of the declared type, [Interaction.t]. *)
Record t (I : Type) : Type := mk {
  rest : jsstring;                     (* the REST client, by its token *)
  interaction : option I;
  handlers : gmap string (list (I -> result (option Promise)));
  logger : DiscordLogger.t;
  applicationId : jsstring;
  response : value
}.
Arguments mk {I}.
Arguments rest {I}.
Arguments interaction {I}.
Arguments handlers {I}.
Arguments logger {I}.
Arguments applicationId {I}.
Arguments response {I}.

(** [constructor(botToken, applicationId, interaction, logger)]. *)
Definition new {I} (botToken applicationId : jsstring) (interaction : option I)
    (logger : DiscordLogger.t) : t I :=
  {| rest := botToken; interaction := interaction; handlers := ∅;
     logger := logger; applicationId := applicationId; response := VNull |}.

Definition set_handlers {I} (h : gmap string (list (I -> result (option Promise))))
    (this : t I) : t I :=
  {| rest := rest this; interaction := interaction this; handlers := h;
     logger := logger this; applicationId := applicationId this;
     response := response this |}.

Definition set_response {I} (r : value) (this : t I) : t I :=
  {| rest := rest this; interaction := interaction this; handlers := handlers this;
     logger := logger this; applicationId := applicationId this;
     response := r |}.

(** The callbacks registered under a category: [this.handlers.get(k) || []]. *)
Definition registered {I} (this : t I) (k : string) : list (I -> result (option Promise)) :=
  default [] (handlers this !! k).

Definition Self : Type := t Interaction.t.

Section WithRuntime.
Context `{Runtime}.

(** [on(interactionType, handler)]; the [this] it returns for chaining is
    the state it leaves. *)
Definition on (interactionType : string) (handler : InteractionHandler) : M Self unit :=
  self ← this;
  (if negb (bool_decide (is_Some (handlers self !! interactionType)))
   then update (set_handlers (<[interactionType := []]> (handlers self)))
   else mret tt);;
  update (fun self =>
            set_handlers (<[interactionType := registered self interactionType ++ [handler]]>
                            (handlers self)) self);;
  log (DiscordLogger.Debug (js "Handler registered")
         (VObj [(js "interactionType", VStr (js interactionType))])).

(** The loop [for (const handler of handlers) promises.push(handler(i))]. *)
Fixpoint call_each (handlers : list InteractionHandler) (i : Interaction.t)
    (promises : list (option Promise)) : M Self (list (option Promise)) :=
  match handlers with
  | [] => mret promises
  | handler :: more =>
      emit (EHandler handler);;
      match handler i with
      | Ok p => call_each more i (promises ++ [p])
      | Throw e => throw e
      end
  end.

(** The chain of shape tests that picks [handlerKey]. *)
Definition handlerKey (i : Interaction.t) : option string :=
  if Interaction.isChatInputCommand i then Some "command"
  else if Interaction.isButton i then Some "button"
  else if Interaction.isStringSelectMenu i
          || Interaction.isUserSelectMenu i
          || Interaction.isRoleSelectMenu i
          || Interaction.isChannelSelectMenu i then Some "select"
  else if Interaction.isModalSubmit i then Some "modal"
  else if Interaction.isAutocomplete i then Some "autocomplete"
  else None.

(** [`${duration}ms`]. *)
Definition ms (duration : Z) : jsstring := num_to_string duration ++ js "ms".

(** The two collecting blocks of [handle]: the wildcard callbacks, then
    those of [handlerKey]; the result is [promises] and [totalHandlers]. *)
Definition collect (self : Self) (i : Interaction.t)
    : M Self (list (option Promise) * nat) :=
  let wildcardHandlers := registered self "*" in
  '(promises, totalHandlers) ←
    (if (0 <? length wildcardHandlers)%nat
     then promises ← call_each wildcardHandlers i [];
          mret (promises, length wildcardHandlers)
     else mret ([], 0%nat));
  match handlerKey i with
  | Some handlerKey =>
      let handlers := registered self handlerKey in
      if (0 <? length handlers)%nat
      then log (DiscordLogger.Debug
                  (js "Executing " ++ num_to_string (Z.of_nat (length handlers))
                   ++ js " handler(s) for " ++ js handlerKey) VUndefined);;
           promises ← call_each handlers i promises;
           mret (promises, (totalHandlers + length handlers)%nat)
      else mret (promises, totalHandlers)
  | None => mret (promises, totalHandlers)
  end.

(** The closing [try { await Promise.all(promises); ... } catch (e) { ... }]
    of [handle]. *)
Definition settle (startTime : Z) (promises : list (option Promise))
    (totalHandlers : nat) : M Self unit :=
  try_catch
    (await (Promise_all promises);;
     now ← Date_now;
     let duration := now - startTime in
     log (DiscordLogger.Success (js "All handlers completed successfully")
            (VObj [(js "totalHandlers", VNum (Z.of_nat totalHandlers));
                   (js "duration", VStr (ms duration))])))
    (fun e =>
       now ← Date_now;
       let duration := now - startTime in
       log (DiscordLogger.Error
              (js "Handler execution failed after " ++ ms duration) e);;
       throw e).

(** [handle()]. *)
Definition handle : M Self unit :=
  self ← this;
  match interaction self with
  | None => log (DiscordLogger.Warn (js "No interaction to handle") VUndefined)
  | Some i =>
      startTime ← Date_now;
      log (DiscordLogger.Section_ (js "Interaction Handler Execution"));;
      log (DiscordLogger.Info
             (js "Processing interaction type: " ++ num_to_string (Interaction.type i))
             VUndefined);;
      '(promises, totalHandlers) ← collect self i;
      settle startTime promises totalHandlers
  end.

(** [e instanceof Error ? e.message : String(e)]. *)
Definition describe (e : value) : jsstring :=
  match e with
  | VErr err => message err
  | _ => String_ e
  end.

(** The guard that opens each of the four reply operations. *)
Definition require_repliable (interaction : Interaction.t) : M Self unit :=
  if negb (Interaction.isRepliable interaction) then
    let error :=
      Errors.new_InteractionNotRepliableError
        (InteractionType (Interaction.type interaction)) in
    log (DiscordLogger.Error (message error) VUndefined);;
    throw (VErr error)
  else mret tt.

(** The [catch (e)] block the four operations share, up to the verb. *)
Definition fail_with (what : string) (interaction : Interaction.t) (e : value) : M Self unit :=
  let error :=
    Errors.new_DiscordInteractionError
      (js what ++ js ": " ++ describe e)
      (Some (Interaction.id interaction))
      (InteractionType (Interaction.type interaction)) in
  log (DiscordLogger.Error (message error) e);;
  throw (VErr error).

(** [(message.embeds?.length || 0) > 0]. *)
Definition hasEmbeds (message : Message.t) : bool :=
  match Message.embeds message with
  | Some (_ :: _) => true
  | _ => false
  end.

(** [reply(interaction, message)]. *)
Definition reply (interaction : Interaction.t) (message : Message.t) : M Self unit :=
  require_repliable interaction;;
  log (DiscordLogger.Info (js "Sending reply")
         (VObj [(js "ephemeral", VBool (default false (Message.ephemeral message)));
                (js "hasEmbeds", VBool (hasEmbeds message))]));;
  log (DiscordLogger.Debug (js "Reply message content") (Message.to_value message));;
  try_catch
    (startTime ← Date_now;
     let payload := Message.payload message in
     emit (EPlatform call_reply payload);;
     await (Interaction.reply interaction payload);;
     update (set_response (VObj [(js "type", VNum 4);
                                 (js "data", Message.to_value message)]));;
     now ← Date_now;
     let duration := now - startTime in
     log (DiscordLogger.Success
            (js "Reply sent successfully (" ++ ms duration ++ js ")") VUndefined))
    (fail_with "Failed to send reply" interaction).

(** [deferReply(interaction, options?)]. *)
Definition deferReply (interaction : Interaction.t) (options : option DeferOptions.t)
    : M Self unit :=
  require_repliable interaction;;
  let ephemeral := DeferOptions.ephemeral_of options in
  log (DiscordLogger.Info (js "Deferring reply")
         (VObj [(js "ephemeral", VBool (default false ephemeral))]));;
  try_catch
    (startTime ← Date_now;
     let payload := DeferOptions.payload options in
     emit (EPlatform call_deferReply payload);;
     await (Interaction.deferReply interaction payload);;
     update (set_response (VObj [(js "type", VNum 5);
                                 (js "data", DeferOptions.to_value options)]));;
     now ← Date_now;
     let duration := now - startTime in
     log (DiscordLogger.Success
            (js "Reply deferred successfully (" ++ ms duration ++ js ")") VUndefined))
    (fail_with "Failed to defer reply" interaction).

(** [editReply(interaction, message)]; the message has no [ephemeral]. *)
Definition editReply (interaction : Interaction.t) (message : Message.t) : M Self unit :=
  require_repliable interaction;;
  log (DiscordLogger.Info (js "Editing reply")
         (VObj [(js "hasEmbeds", VBool (hasEmbeds message))]));;
  log (DiscordLogger.Debug (js "Edit message content") (Message.to_value message));;
  try_catch
    (startTime ← Date_now;
     let payload := Message.edit_payload message in
     emit (EPlatform call_editReply payload);;
     await (Interaction.editReply interaction payload);;
     now ← Date_now;
     let duration := now - startTime in
     log (DiscordLogger.Success
            (js "Reply edited successfully (" ++ ms duration ++ js ")") VUndefined))
    (fail_with "Failed to edit reply" interaction).

(** [followUp(interaction, message)]. *)
Definition followUp (interaction : Interaction.t) (message : Message.t) : M Self unit :=
  require_repliable interaction;;
  log (DiscordLogger.Info (js "Sending follow-up")
         (VObj [(js "ephemeral", VBool (default false (Message.ephemeral message)));
                (js "hasEmbeds", VBool (hasEmbeds message))]));;
  log (DiscordLogger.Debug (js "Follow-up message content") (Message.to_value message));;
  try_catch
    (startTime ← Date_now;
     let payload := Message.payload message in
     emit (EPlatform call_followUp payload);;
     await (Interaction.followUp interaction payload);;
     now ← Date_now;
     let duration := now - startTime in
     log (DiscordLogger.Success
            (js "Follow-up sent successfully (" ++ ms duration ++ js ")") VUndefined))
    (fail_with "Failed to send follow-up" interaction).

(** [getInteraction()] and [getClient()]. *)
Definition getInteraction (self : Self) : option Interaction.t := interaction self.
Definition getClient (self : Self) : jsstring := rest self.

End WithRuntime.
End DiscordHelper.

(* ===================================================================== *)
(** * src/plugin/elysia-discord.ts: the plugin *)
(* ===================================================================== *)

(** [interface DiscordOptions] (src/types); a field the caller leaves out
    is [None]. *)
Module DiscordOptions.
Record t : Type := mk {
  publicKey : option jsstring;
  botToken : option jsstring;
  applicationId : option jsstring;
  verbose : option bool
}.
End DiscordOptions.

(** The part of a request the hook reads. Header names are stored in lower
    case, as [Headers.get] looks them up. *)
Module Request.
Record t : Type := mk {
  method : string;
  headers : gmap string jsstring;
  text : result jsstring               (* what awaiting [request.text()] gives *)
}.
End Request.

(** [interface DiscordStore]: the two slots the plugin declares with
    [.state(...)], both initially [null]. *)
Module Store.
Record t : Type := mk {
  discord_interaction : value;
  discord_response : value
}.
Definition initial : t := mk VNull VNull.
End Store.

(** The part of the framework's context the hook writes: [set.status] and
    the store. *)
Module Context.
Record t : Type := mk {
  status : option Z;
  store : Store.t
}.
Definition set_status (code : Z) (c : t) : t := mk (Some code) (store c).
Definition set_interaction (v : value) (c : t) : t :=
  mk (status c) (Store.mk v (Store.discord_response (store c))).
End Context.

Module Plugin.

(** What [discord(options)] returns: the framework instance, by its name
    and the values its hooks close over. *)
Record t : Type := mk {
  name : jsstring;
  seed : DiscordOptions.t;
  publicKey : jsstring;
  botToken : jsstring;
  applicationId : jsstring;
  logger : DiscordLogger.t
}.

Section WithRuntime.
Context `{Runtime}.

(** Lifting a collaborator's completion into a computation. *)
Definition lift {S A} (r : result A) : M S A := fun s => (s, r).

(** [verifyDiscordSignature(body, signature, timestamp, publicKey)]. *)
Definition verifyDiscordSignature {S} (body signature timestamp publicKey : jsstring)
    : M S bool :=
  try_catch
    (emit (EVerifyKey body signature timestamp publicKey);;
     lift (verifyKey body signature timestamp publicKey))
    (fun e => mret false).

(** [discord(options)]: the checks of the three required fields, then the
    construction. *)
Definition discord (options : DiscordOptions.t) : result t :=
  let publicKey := DiscordOptions.publicKey options in
  let botToken := DiscordOptions.botToken options in
  let applicationId := DiscordOptions.applicationId options in
  let verbose := default false (DiscordOptions.verbose options) in
  if negb (truthy_str publicKey) then
    Throw (VErr (Errors.new_ConfigurationError
                   (js "publicKey is required. Get it from Discord Developer Portal.")
                   (Some (js "publicKey"))))
  else if negb (truthy_str botToken) then
    Throw (VErr (Errors.new_ConfigurationError
                   (js "botToken is required. Get it from Discord Developer Portal.")
                   (Some (js "botToken"))))
  else if negb (truthy_str applicationId) then
    Throw (VErr (Errors.new_ConfigurationError
                   (js "applicationId is required. Get it from Discord Developer Portal.")
                   (Some (js "applicationId"))))
  else
    let logger := DiscordLogger.new verbose in
    Ok {| name := js "@prachaya.dev5641/elysia-discord"; seed := options;
          publicKey := default [] publicKey; botToken := default [] botToken;
          applicationId := default [] applicationId; logger := logger |}.

(** [{ error: text }]. *)
Definition error_body (text : string) : value := VObj [(js "error", VStr (js text))].

(** A header value as a logged value: the string, or [null]. *)
Definition header_value (o : option jsstring) : value :=
  match o with
  | Some s => VStr s
  | None => VNull
  end.

(** The [onRequest] hook.  It returns the response body, or [VUndefined]
    when it returns nothing. *)
Definition onRequest (app : t) (request : Request.t) : M Context.t value :=
  if negb (String.eqb (Request.method request) "POST") then mret VUndefined
  else
    let requestId := randomId in
    log (DiscordLogger.Section_ (js "Discord Interaction [" ++ requestId ++ js "]"));;
    let signature := Request.headers request !! "x-signature-ed25519" in
    let timestamp := Request.headers request !! "x-signature-timestamp" in
    if negb (truthy_str signature) || negb (truthy_str timestamp) then
      log (DiscordLogger.Warn
             (js "Request ignored: Missing Discord signature headers") VUndefined);;
      update (Context.set_status 401);;
      mret (error_body "Missing signature headers")
    else
      let signature := default [] signature in
      let timestamp := default [] timestamp in
      log (DiscordLogger.Info (js "Signature verification started") VUndefined);;
      read ←
        try_catch
          (emit ERequestText;;
           body ← lift (Request.text request);
           log (DiscordLogger.Debug (js "Request body received")
                  (VObj [(js "contentLength", VNum (Z.of_nat (length body)));
                         (js "contentType",
                          header_value (Request.headers request !! "content-type"))]));;
           mret (inl body))
          (fun e =>
             log (DiscordLogger.Error (js "Failed to read request body") e);;
             update (Context.set_status 400);;
             mret (inr (error_body "Failed to read request body")));
      match read with
      | inr response => mret response
      | inl body =>
          isValid ← verifyDiscordSignature body signature timestamp (publicKey app);
          if negb isValid then
            log (DiscordLogger.Error (js "Signature verification failed")
                   (VObj [(js "signatureLength", VNum (Z.of_nat (length signature)));
                          (js "timestampLength", VNum (Z.of_nat (length timestamp)))]));;
            update (Context.set_status 401);;
            mret (error_body "Invalid signature")
          else
            log (DiscordLogger.Success (js "Signature verified") VUndefined);;
            try_catch
              (emit (EJSONParse body);;
               interaction ← lift (JSON_parse body);
               type ← lift (get_prop interaction (js "type"));
               id ← lift (get_prop interaction (js "id"));
               log (DiscordLogger.Info (js "Discord interaction parsed")
                      (VObj [(js "type", type); (js "id", id)]));;
               log (DiscordLogger.Debug (js "Full interaction payload") interaction);;
               type ← lift (get_prop interaction (js "type"));
               if strict_eq_num type 1 then
                 log (DiscordLogger.Info (js "Responding to Discord PING") VUndefined);;
                 update (Context.set_status 200);;
                 mret (VObj [(js "type", VNum 1)])
               else
                 update (Context.set_interaction interaction);;
                 log (DiscordLogger.Success (js "Request processed successfully")
                        VUndefined);;
                 log DiscordLogger.Divider;;
                 mret VUndefined)
              (fun e =>
                 log (DiscordLogger.Error (js "Failed to parse JSON body") e);;
                 update (Context.set_status 400);;
                 mret (error_body "Invalid JSON body"))
      end.

(** The [derive] stage: the helper the route handler receives, if any. *)
Definition derive (app : t) (store : Store.t) : option (DiscordHelper.t value) :=
  let interaction := Store.discord_interaction store in
  if negb (truthy interaction) then None
  else Some (DiscordHelper.new (botToken app) (applicationId app)
                               (Some interaction) (logger app)).

(** The framework's request life cycle, as far as the two hooks take part
    in it: the request hook runs first; a value it returns is the response
    and ends the cycle ([inl]); otherwise the derive stage runs on the
    store and the route handler receives its result ([inr]). *)
Definition lifecycle (app : t) (request : Request.t)
    : M Context.t (value + option (DiscordHelper.t value)) :=
  returned ← onRequest app request;
  match returned with
  | VUndefined => ctx ← this; mret (inr (derive app (Context.store ctx)))
  | body => mret (inl body)
  end.

(** The helper constructed while serving a request, if any. *)
Definition router_of (served : result (value + option (DiscordHelper.t value)))
    : option (DiscordHelper.t value) :=
  match served with
  | Ok (inr helper) => helper
  | _ => None
  end.

End WithRuntime.
End Plugin.

(* ===================================================================== *)
(** * Observations on runs *)
(* ===================================================================== *)

(** The callbacks a run called, in order. *)
Definition invoked (tr : list event) : list InteractionHandler :=
  omap (fun ev => match ev with EHandler h => Some h | _ => None end) tr.

(** The platform calls a run made. *)
Definition platform_calls (tr : list event) : list (platform_call * value) :=
  omap (fun ev => match ev with EPlatform c p => Some (c, p) | _ => None end) tr.

(** The logger operations a run called, with the time of each call. *)
Definition logger_calls (tr : list event) : list (Z * DiscordLogger.call) :=
  omap (fun ev => match ev with ELogger now c => Some (now, c) | _ => None end) tr.



(** A callback returns (nothing or a promise) rather than throwing. *)
Definition returns (i : Interaction.t) (h : InteractionHandler) : bool :=
  match h i with
  | Ok _ => true
  | Throw _ => false
  end.

(** The value the first throwing callback of a list throws, if any. *)
Fixpoint first_throw (i : Interaction.t) (hs : list InteractionHandler) : option value :=
  match hs with
  | [] => None
  | h :: more =>
      match h i with
      | Throw e => Some e
      | Ok _ => first_throw i more
      end
  end.

(** The callbacks of a list up to and including the first that throws. *)
Fixpoint until_throw (i : Interaction.t) (hs : list InteractionHandler)
    : list InteractionHandler :=
  match hs with
  | [] => []
  | h :: more => h :: (if returns i h then until_throw i more else [])
  end.

(** What the callbacks hand back to [promises.push]. *)
Definition returned (i : Interaction.t) (hs : list InteractionHandler)
    : list (option Promise) :=
  omap (fun h : InteractionHandler =>
          match h i with Ok p => Some p | Throw _ => None end) hs.


(** The callbacks dispatch selects for an interaction: the wildcard ones,
    then those of the category [handlerKey] picks. *)
Definition selected (self : DiscordHelper.Self) (i : Interaction.t)
    : list InteractionHandler :=
  DiscordHelper.registered self "*"
  ++ match DiscordHelper.handlerKey i with
     | Some k => DiscordHelper.registered self k
     | None => []
     end.

Definition is_success_entry (entry : Z * DiscordLogger.call) : bool :=
  match entry.2 with
  | DiscordLogger.Success _ _ => true
  | _ => false
  end.

Definition is_error_entry (entry : Z * DiscordLogger.call) : bool :=
  match entry.2 with
  | DiscordLogger.Error _ _ => true
  | _ => false
  end.

(** Events among which the logger is called neither for a success nor for
    an error. *)
Definition quiet (evs : list event) : Prop :=
  filter is_success_entry (logger_calls evs) = []
  /\ filter is_error_entry (logger_calls evs) = [].

Definition is_ok {A} (r : result A) : bool :=
  match r with
  | Ok _ => true
  | Throw _ => false
  end.

(** The text a data dump printed, read back from the console: each line
    without its 13 code units of colour and tree prefix, joined by line
    feeds. *)
Definition printed_text (out : list console) : jsstring :=
  join_lines (map (fun c => drop 13 (console_text c)) out).

(** The data value a logger call dumps through [logData], if any: a truthy
    [data] argument, or a truthy [error] argument that is not an [Error]
    instance. *)
Definition dumped (c : DiscordLogger.call) : option value :=
  match c with
  | DiscordLogger.Info _ d | DiscordLogger.Success _ d
  | DiscordLogger.Warn _ d | DiscordLogger.Debug _ d =>
      if truthy d then Some d else None
  | DiscordLogger.Error _ e =>
      match e with
      | VErr _ => None
      | _ => if truthy e then Some e else None
      end
  | DiscordLogger.Divider | DiscordLogger.Section_ _ => None
  end.

(** The helper after [on(k, h)] for each pair of a list, in order. *)
Definition registering `{Runtime} (regs : list (string * InteractionHandler))
    (self : DiscordHelper.Self) : DiscordHelper.Self :=
  foldl (fun self r => (run (DiscordHelper.on r.1 r.2) 0 self).1.2) self regs.

(** The four reply operations as one family. *)
Module Operation.
Inductive t : Type :=
| Reply (message : Message.t)
| DeferReply (options : option DeferOptions.t)
| EditReply (message : Message.t)
| FollowUp (message : Message.t).

Definition perform `{Runtime} (op : t) (interaction : Interaction.t)
    : M DiscordHelper.Self unit :=
  match op with
  | Reply m => DiscordHelper.reply interaction m
  | DeferReply o => DiscordHelper.deferReply interaction o
  | EditReply m => DiscordHelper.editReply interaction m
  | FollowUp m => DiscordHelper.followUp interaction m
  end.

(** The platform call an operation makes, and the promise it awaits. *)
Definition call_of (op : t) : platform_call * value :=
  match op with
  | Reply m => (call_reply, Message.payload m)
  | DeferReply o => (call_deferReply, DeferOptions.payload o)
  | EditReply m => (call_editReply, Message.edit_payload m)
  | FollowUp m => (call_followUp, Message.payload m)
  end.

Definition promise_of (op : t) (i : Interaction.t) : Promise :=
  match op with
  | Reply m => Interaction.reply i (Message.payload m)
  | DeferReply o => Interaction.deferReply i (DeferOptions.payload o)
  | EditReply m => Interaction.editReply i (Message.edit_payload m)
  | FollowUp m => Interaction.followUp i (Message.payload m)
  end.

(** The verb of the failure message. *)
Definition failure (op : t) : string :=
  match op with
  | Reply _ => "Failed to send reply"
  | DeferReply _ => "Failed to defer reply"
  | EditReply _ => "Failed to edit reply"
  | FollowUp _ => "Failed to send follow-up"
  end.
End Operation.

(** One line of a data dump as [logData] prints it: the branch connector,
    or the terminal one for the last line. *)
Definition tree_line (isLast : bool) (line : jsstring) : console :=
  console_log (DiscordLogger.colors.dim
               ++ (js "  " ++ (if isLast then DiscordLogger.glyph_last
                               else DiscordLogger.glyph_branch))
               ++ DiscordLogger.colors.reset ++ js " " ++ line).

(** One line of a stack trace as [error] prints it: trimmed, behind the
    branch connector, or the terminal one for the last line shown. *)
Definition stack_line (isLast : bool) (line : jsstring) : console :=
  console_error (js "  " ++ DiscordLogger.colors.dim
                 ++ (if isLast then DiscordLogger.glyph_last
                     else DiscordLogger.glyph_branch)
                 ++ DiscordLogger.colors.reset ++ js " " ++ trim line).

(** Lines 2 to 4 of a stack trace (fewer when it is shorter, none when it
    is missing or empty). *)
Definition shown_stack (stack : option jsstring) : list jsstring :=
  match stack with
  | Some text =>
      match text with
      | [] => []
      | _ => take 3 (drop 1 (split_lines text))
      end
  | None => []
  end.

Definition is_console_error (c : console) : bool :=
  match c with
  | console_error _ => true
  | _ => false
  end.

(** The text of the success line of each reply operation. *)
Definition success_text (op : Operation.t) : string :=
  match op with
  | Operation.Reply _ => "Reply sent successfully"
  | Operation.DeferReply _ => "Reply deferred successfully"
  | Operation.EditReply _ => "Reply edited successfully"
  | Operation.FollowUp _ => "Follow-up sent successfully"
  end.

(** A request that gets as far as the verifier: a POST with both headers
    non-empty and a body that can be read. *)
Definition reaches_verifier (request : Request.t) (signature timestamp body : jsstring)
    : Prop :=
  Request.method request = "POST"
  /\ Request.headers request !! "x-signature-ed25519" = Some signature
  /\ Request.headers request !! "x-signature-timestamp" = Some timestamp
  /\ signature <> [] /\ timestamp <> []
  /\ Request.text request = Ok body.


(** The callbacks a list of registrations gives for a category. *)
Definition given_for (k : string) (regs : list (string * InteractionHandler))
    : list InteractionHandler :=
  (filter (fun r => r.1 = k) regs).*2.

(* ===================================================================== *)
(** * A concrete runtime and concrete inputs *)
(* ===================================================================== *)

Module Demo.

(** The body of a handshake request and of a slash command. *)
Definition ping_body : jsstring :=
  js "{" ++ quote ++ js "type" ++ quote ++ js ":1}".
Definition command_body : jsstring :=
  js "{" ++ quote ++ js "type" ++ quote ++ js ":2}".
Definition null_body : jsstring := js "null".

(** A runtime whose verifier accepts the signature [good], throws on the
    signature [boom] and rejects the others, and whose parser knows the
    three bodies above. *)
#[export] Instance runtime : Runtime := {|
  verifyKey body signature timestamp publicKey :=
    if bool_decide (signature = js "boom")
    then Throw (TypeError (js "Invalid character in signature"))
    else Ok (bool_decide (signature = js "good"));
  JSON_parse body :=
    if bool_decide (body = ping_body) then Ok (VObj [(js "type", VNum 1)])
    else if bool_decide (body = command_body) then Ok (VObj [(js "type", VNum 2)])
    else if bool_decide (body = null_body) then Ok VNull
    else Throw (VErr (mkError Error_ (js "SyntaxError") (js "Unexpected token")
                              None None None None None None));
  JSON_stringify data :=
    match data with
    | VStr s => quote ++ s ++ quote
    | VNum n => num_to_string n
    | _ => js "{}"
    end;
  String_ e :=
    match e with
    | VStr s => s
    | VNum n => num_to_string n
    | _ => js "[object Object]"
    end;
  toISOString t := num_to_string t;
  isTTY := false;
  randomId := js "k3x9q2a";
  captureStackTrace _ := None;
  InteractionType n :=
    match n with
    | 1 => Some (js "Ping")
    | 2 => Some (js "ApplicationCommand")
    | 3 => Some (js "MessageComponent")
    | 4 => Some (js "ApplicationCommandAutocomplete")
    | 5 => Some (js "ModalSubmit")
    | _ => None
    end
|}.

Definition settled : Promise := mkPromise 0 (Ok tt).
Definition failing (e : value) : Promise := mkPromise 0 (Throw e).

(** A slash command, a button press and a handshake, with platform calls
    that succeed after 20 ms. *)
Definition interaction_of (type : Z) (command button repliable : bool) : Interaction.t :=
  {| Interaction.type := type; Interaction.id := js "1234567890";
     Interaction.isChatInputCommand := command; Interaction.isButton := button;
     Interaction.isStringSelectMenu := false; Interaction.isUserSelectMenu := false;
     Interaction.isRoleSelectMenu := false; Interaction.isChannelSelectMenu := false;
     Interaction.isModalSubmit := false; Interaction.isAutocomplete := false;
     Interaction.isRepliable := repliable;
     Interaction.reply := fun _ => mkPromise 20 (Ok tt);
     Interaction.deferReply := fun _ => mkPromise 20 (Ok tt);
     Interaction.editReply := fun _ => mkPromise 20 (Ok tt);
     Interaction.followUp := fun _ => mkPromise 20 (Ok tt) |}.

Definition command : Interaction.t := interaction_of 2 true false true.
Definition button : Interaction.t := interaction_of 3 false true true.
Definition ping : Interaction.t := interaction_of 1 false false false.

(** Callbacks: one that returns nothing, one whose promise is fulfilled
    after 5 ms, one whose promise is rejected after 3 ms, and one that
    throws before returning. *)
Definition h_void : InteractionHandler := fun _ => Ok None.
Definition h_async : InteractionHandler := fun _ => Ok (Some (mkPromise 5 (Ok tt))).
Definition h_throw : InteractionHandler := fun _ => Throw (VStr (js "thrown")).

Definition logger : DiscordLogger.t := DiscordLogger.new true.

Definition helper (i : Interaction.t) : DiscordHelper.Self :=
  DiscordHelper.new (js "token") (js "app") (Some i) logger.

Definition register := registering.

Definition options : DiscordOptions.t :=
  DiscordOptions.mk (Some (js "pk")) (Some (js "token")) (Some (js "app")) None.

Definition app : Plugin.t :=
  Plugin.mk (js "@prachaya.dev5641/elysia-discord") options
            (js "pk") (js "token") (js "app") (DiscordLogger.new false).

Definition post (headers : list (string * jsstring)) (body : jsstring) : Request.t :=
  Request.mk "POST" (list_to_map headers) (Ok body).

Definition fresh : Context.t := Context.mk None Store.initial.

Definition signed : list (string * jsstring) :=
  [("x-signature-ed25519", js "good"); ("x-signature-timestamp", js "1700000000")].


(** An error with a five-line stack. *)
Definition deep_error : ErrorObject :=
  mkError Error_ (js "Error") (js "This is a test error!")
          (Some (js "Error: This is a test error!" ++ 10%N :: js "    at one"
                 ++ 10%N :: js "    at two" ++ 10%N :: js "    at three"
                 ++ 10%N :: js "    at four"))
          None None None None None.

(** A modal submission and an interaction of no known shape. *)
Definition modal : Interaction.t :=
  {| Interaction.type := 5; Interaction.id := js "1234567890";
     Interaction.isChatInputCommand := false; Interaction.isButton := false;
     Interaction.isStringSelectMenu := false; Interaction.isUserSelectMenu := false;
     Interaction.isRoleSelectMenu := false; Interaction.isChannelSelectMenu := false;
     Interaction.isModalSubmit := true; Interaction.isAutocomplete := false;
     Interaction.isRepliable := true;
     Interaction.reply := fun _ => mkPromise 20 (Ok tt);
     Interaction.deferReply := fun _ => mkPromise 20 (Ok tt);
     Interaction.editReply := fun _ => mkPromise 20 (Ok tt);
     Interaction.followUp := fun _ => mkPromise 20 (Ok tt) |}.

Definition role_select : Interaction.t :=
  {| Interaction.type := 3; Interaction.id := js "1234567890";
     Interaction.isChatInputCommand := false; Interaction.isButton := false;
     Interaction.isStringSelectMenu := false; Interaction.isUserSelectMenu := false;
     Interaction.isRoleSelectMenu := true; Interaction.isChannelSelectMenu := false;
     Interaction.isModalSubmit := false; Interaction.isAutocomplete := false;
     Interaction.isRepliable := true;
     Interaction.reply := fun _ => mkPromise 20 (Ok tt);
     Interaction.deferReply := fun _ => mkPromise 20 (Ok tt);
     Interaction.editReply := fun _ => mkPromise 20 (Ok tt);
     Interaction.followUp := fun _ => mkPromise 20 (Ok tt) |}.

(** An interaction whose type number the enumeration does not know and
    that cannot be replied to. *)
Definition unknown_type : Interaction.t := interaction_of 99 false false false.

(** A repliable interaction whose deferred acknowledgment fails. *)
Definition failing_defer : Interaction.t :=
  {| Interaction.type := 2; Interaction.id := js "1234567890";
     Interaction.isChatInputCommand := true; Interaction.isButton := false;
     Interaction.isStringSelectMenu := false; Interaction.isUserSelectMenu := false;
     Interaction.isRoleSelectMenu := false; Interaction.isChannelSelectMenu := false;
     Interaction.isModalSubmit := false; Interaction.isAutocomplete := false;
     Interaction.isRepliable := true;
     Interaction.reply := fun _ => mkPromise 20 (Ok tt);
     Interaction.deferReply := fun _ => mkPromise 7 (Throw (VStr (js "Unknown interaction")));
     Interaction.editReply := fun _ => mkPromise 20 (Ok tt);
     Interaction.followUp := fun _ => mkPromise 20 (Ok tt) |}.

End Demo.

(* ===================================================================== *)
(** * Proof steps *)
(* ===================================================================== *)

(** Running the monadic operations; string literals stay folded. *)
Ltac exec :=
  cbv [mbind M_bind mret M_ret throw try_catch emit Date_now this update await log
       Effects.run Plugin.lift Plugin.verifyDiscordSignature];
  cbn [trace clock Datatypes.app fst snd from_option Datatypes.id].

(* ===================================================================== *)
(** * The logger *)
(* ===================================================================== *)

Section LoggerFacts.
Context `{Runtime}.

Lemma split_lines_cons (s : jsstring) : exists l ls, split_lines s = l :: ls.
Proof.
  destruct s as [|c rest]; simpl; [by eauto|].
  destruct (c =? 10)%N; [by eauto|].
  destruct (split_lines rest); eauto.
Qed.

(** Splitting at line feeds and joining with line feeds is the identity. *)
Lemma join_split_lines (s : jsstring) : join_lines (split_lines s) = s.
Proof.
  induction s as [|c rest IH]; [reflexivity|].
  simpl. destruct (split_lines_cons rest) as (l & ls & E).
  rewrite E in IH |- *.
  destruct (N.eqb_spec c 10) as [->|_].
  - simpl in *. by rewrite IH.
  - destruct ls; simpl in *; by rewrite <- IH.
Qed.

(** The thirteen code units in front of a dumped line. *)
Lemma drop_tree_prefix (isLast : bool) (line : jsstring) :
  drop 13
    (DiscordLogger.colors.dim
     ++ (js "  " ++ (if isLast then DiscordLogger.glyph_last
                     else DiscordLogger.glyph_branch))
     ++ DiscordLogger.colors.reset ++ js " " ++ line) = line.
Proof. by destruct isLast. Qed.

Lemma imap_retract {A B} (f : nat -> A -> B) (g : B -> A) (l : list A) :
  (forall n x, g (f n x) = x) -> g <$> imap f l = l.
Proof.
  intros Hgf. revert f Hgf.
  induction l as [|x l IH]; intros f Hgf; [reflexivity|].
  rewrite imap_cons, fmap_cons, Hgf. f_equal. apply IH.
  intros n y. apply Hgf.
Qed.

(** Read back from the console, a dump is the text [logData] split. *)
Lemma printed_text_logData (logger : DiscordLogger.t) (data : value) :
  DiscordLogger.enabled logger = true ->
  printed_text (DiscordLogger.logData logger data) = DiscordLogger.stringified data.
Proof.
  intros Hon. unfold printed_text, DiscordLogger.logData. rewrite Hon. simpl.
  rewrite <- (join_split_lines (DiscordLogger.stringified data)) at 2.
  f_equal. apply (imap_retract _ (fun c => drop 13 (console_text c))).
  intros n line. simpl. apply drop_tree_prefix.
Qed.

(** A call that carries dumpable data prints its line, then the dump. *)
Lemma run_dumped (logger : DiscordLogger.t) (now : Z) (c : DiscordLogger.call)
    (data : value) :
  DiscordLogger.enabled logger = true ->
  dumped c = Some data ->
  exists line, DiscordLogger.run logger now c = line :: DiscordLogger.logData logger data.
Proof.
  intros Hon Hd.
  destruct c as [m d|m d|m d|m e|m d| |title]; simpl in Hd; try discriminate;
    unfold DiscordLogger.run, DiscordLogger.info, DiscordLogger.success,
      DiscordLogger.warn, DiscordLogger.error, DiscordLogger.debug;
    rewrite Hon; simpl.
  1-3,5: destruct (truthy d); [|discriminate]; injection Hd as ->; eauto.
  destruct e; simpl in *; try discriminate;
    repeat match goal with
           | H : (if ?b then _ else _) = Some _ |- _ => destruct b eqn:?; [|discriminate]
           end; injection Hd as <-; eauto.
Qed.

(** A disabled logger prints nothing. *)
Lemma run_disabled (logger : DiscordLogger.t) (now : Z) (c : DiscordLogger.call) :
  DiscordLogger.enabled logger = false -> DiscordLogger.run logger now c = [].
Proof.
  intros Hoff. destruct c; simpl;
    unfold DiscordLogger.info, DiscordLogger.success, DiscordLogger.warn,
      DiscordLogger.error, DiscordLogger.debug, DiscordLogger.divider,
      DiscordLogger.section; by rewrite Hoff.
Qed.

(** An enabled logger prints the formatted line of a levelled call first. *)
Lemma run_success_line (logger : DiscordLogger.t) (now : Z) (m : jsstring) (d : value) :
  DiscordLogger.enabled logger = true ->
  head (DiscordLogger.run logger now (DiscordLogger.Success m d))
  = Some (console_log (DiscordLogger.formatLog now "SUCCESS" DiscordLogger.colors.green m)).
Proof. intros Hon. simpl. unfold DiscordLogger.success. by rewrite Hon. Qed.

Lemma run_error_line (logger : DiscordLogger.t) (now : Z) (m : jsstring) (e : value) :
  DiscordLogger.enabled logger = true ->
  head (DiscordLogger.run logger now (DiscordLogger.Error m e))
  = Some (console_error (DiscordLogger.formatLog now "ERROR" DiscordLogger.colors.red m)).
Proof. intros Hon. simpl. unfold DiscordLogger.error. by rewrite Hon. Qed.

(** C7. When a logger call dumps a data value, the text printed is the
    indented-JSON serialization itself if that has at most 5000 code
    units, and otherwise exactly its first 5000 code units followed by the
    fixed marker (a line feed and "... (truncated)"). *)
Theorem logData_truncates_at_5000 (logger : DiscordLogger.t) (now : Z)
    (c : DiscordLogger.call) (data : value) :
  DiscordLogger.enabled logger = true ->
  dumped c = Some data ->
  let serialized := JSON_stringify data in
  let printed := printed_text (DiscordLogger.logData logger data) in
  (exists line,
      DiscordLogger.run logger now c = line :: DiscordLogger.logData logger data)
  /\ if (5000 <? length serialized)%nat
     then printed = take 5000 serialized ++ 10%N :: js "... (truncated)"
          /\ length (take 5000 serialized) = 5000%nat
     else printed = serialized.
Proof.
  intros Hon Hd serialized printed. split; [by apply run_dumped|].
  unfold printed. rewrite printed_text_logData by done.
  unfold DiscordLogger.stringified, DiscordLogger.maxDataLength, substring0.
  fold serialized.
  destruct (Nat.ltb_spec 5000 (length serialized)) as [Hlen|Hlen]; [|reflexivity].
  split; [reflexivity|]. apply length_take_le. lia.
Qed.

End LoggerFacts.

(* ===================================================================== *)
(** * The plugin: configuration and the request hook *)
(* ===================================================================== *)

Section PluginFacts.
Context `{Runtime}.

(** C8. [discord(options)] throws a [ConfigurationError] whose [field]
    names a missing field when the public key, the bot token or the
    application id is absent or empty; nothing is constructed, so no hook
    exists to accept a request. With all three present it returns the
    plugin, whose logger is enabled exactly when [verbose] is given as
    true (an omitted [verbose] counts as false). *)
Theorem discord_validates_configuration (options : DiscordOptions.t) :
  let missing (f : option jsstring) := negb (truthy_str f) in
  if missing (DiscordOptions.publicKey options)
     || missing (DiscordOptions.botToken options)
     || missing (DiscordOptions.applicationId options)
  then
    exists error named,
      Plugin.discord options = Throw (VErr error)
      /\ cls error = ConfigurationError
      /\ code error = Some (js "INVALID_CONFIGURATION")
      /\ field error = Some (js named)
      /\ (named = "publicKey" /\ missing (DiscordOptions.publicKey options) = true
          \/ named = "botToken" /\ missing (DiscordOptions.botToken options) = true
          \/ named = "applicationId"
             /\ missing (DiscordOptions.applicationId options) = true)
  else
    exists app,
      Plugin.discord options = Ok app
      /\ Some (Plugin.publicKey app) = DiscordOptions.publicKey options
      /\ Some (Plugin.botToken app) = DiscordOptions.botToken options
      /\ Some (Plugin.applicationId app) = DiscordOptions.applicationId options
      /\ DiscordLogger.enabled (Plugin.logger app)
         = default false (DiscordOptions.verbose options).
Proof.
  intros missing. unfold Plugin.discord. subst missing. cbv beta.
  destruct options as [pk bt ai vb]. cbn [DiscordOptions.publicKey
    DiscordOptions.botToken DiscordOptions.applicationId DiscordOptions.verbose].
  destruct (truthy_str pk) eqn:Hpk; cbn [negb orb].
  2:{ eexists _, "publicKey". split_and!; try reflexivity. by left. }
  destruct (truthy_str bt) eqn:Hbt; cbn [negb orb].
  2:{ eexists _, "botToken". split_and!; try reflexivity. right; by left. }
  destruct (truthy_str ai) eqn:Hai; cbn [negb orb].
  2:{ eexists _, "applicationId". split_and!; try reflexivity. right; by right. }
  eexists. split; [reflexivity|].
  destruct pk as [[|? ?]|], bt as [[|? ?]|], ai as [[|? ?]|]; try discriminate.
  by cbn.
Qed.

(** On the initial store the derive stage yields no helper. *)
Lemma derive_initial (app : Plugin.t) : Plugin.derive app Store.initial = None.
Proof. reflexivity. Qed.

Lemma get_prop_defined (v : value) (k k' : jsstring) (x : value) :
  get_prop v k = Ok x -> exists y, get_prop v k' = Ok y.
Proof. destruct v; simpl; intros; try discriminate; eauto. Qed.

(** A response returned by the hook ends the life cycle: the derive stage
    does not run. *)
Lemma lifecycle_returned (app : Plugin.t) (request : Request.t) (start : Z)
    (ctx ctx' : Context.t) (w : World) (body : value) :
  run (Plugin.onRequest app request) start ctx = (w, ctx', Ok body) ->
  body <> VUndefined ->
  run (Plugin.lifecycle app request) start ctx = (w, ctx', Ok (inl body)).
Proof.
  unfold Plugin.lifecycle. exec. intros -> Hbody. by destruct body.
Qed.

(** The hook recovers every failure into a response: it never throws. *)
Lemma onRequest_never_throws (app : Plugin.t) (request : Request.t)
    (ctx : Context.t) (start : Z) :
  is_ok (run (Plugin.onRequest app request) start ctx).2 = true.
Proof.
  unfold Plugin.onRequest.
  destruct (negb (String.eqb (Request.method request) "POST")); [done|].
  destruct (negb (truthy_str (Request.headers request !! "x-signature-ed25519"))
            || negb (truthy_str (Request.headers request !! "x-signature-timestamp")));
    [done|].
  exec. destruct (Request.text request) as [body|e]; [|done]. exec.
  destruct (verifyKey body _ _ _) as [[]|e]; exec; [|done..].
  destruct (JSON_parse body) as [payload|e]; [|done]. exec.
  destruct (get_prop payload (js "type")) as [type|e] eqn:Hty; [|done]. exec.
  destruct (get_prop_defined _ _ (js "id") _ Hty) as [id ->]. exec.
  by destruct (strict_eq_num type 1).
Qed.

(** X24. The hook writes the store only for a request it has verified: if
    the stored interaction changes, both headers were there, the body was
    read, and the verifier returned [true] on them. *)
Lemma store_written_only_when_verified (app : Plugin.t) (request : Request.t)
    (ctx : Context.t) (start : Z) :
  let hook := run (Plugin.onRequest app request) start ctx in
  Context.store hook.1.2 <> Context.store ctx ->
  exists signature timestamp body,
    Request.headers request !! "x-signature-ed25519" = Some signature
    /\ Request.headers request !! "x-signature-timestamp" = Some timestamp
    /\ Request.text request = Ok body
    /\ verifyKey body signature timestamp (Plugin.publicKey app) = Ok true.
Proof.
  intros hook. subst hook. unfold Plugin.onRequest.
  destruct (negb (String.eqb (Request.method request) "POST")); [done|].
  destruct (Request.headers request !! "x-signature-ed25519") as [[|s0 signature]|];
    try done.
  destruct (Request.headers request !! "x-signature-timestamp") as [[|t0 timestamp]|];
    try done.
  cbn [negb truthy_str orb]. exec.
  destruct (Request.text request) as [body|e]; [|done]. exec.
  destruct (verifyKey body _ _ _) as [[]|e] eqn:Hv; exec; [|done..].
  intros _. exists (s0 :: signature), (t0 :: timestamp), body. done.
Qed.

(** What the hook does once both headers are present and the body is read,
    up to the verdict of the verifier. *)
Ltac enter_hook Hm Hs Ht Hbody :=
  unfold Plugin.onRequest; rewrite Hm, Hs, Ht;
  cbn [String.eqb Ascii.eqb Bool.eqb negb truthy_str orb];
  exec; rewrite Hbody; exec.




(** C2. A POST request whose body passes verification and parses to a
    payload whose [type] is the number 1 is answered 200 with the body
    [{type: 1}], whatever else the payload holds; nothing is stored and the
    life cycle ends in the hook, so no helper is constructed. *)
Theorem handshake_acknowledged (app : Plugin.t) (request : Request.t)
    (ctx : Context.t) (start : Z) (signature timestamp body : jsstring)
    (payload : value) :
  Request.method request = "POST" ->
  Request.headers request !! "x-signature-ed25519" = Some signature ->
  Request.headers request !! "x-signature-timestamp" = Some timestamp ->
  signature <> [] -> timestamp <> [] ->
  Request.text request = Ok body ->
  verifyKey body signature timestamp (Plugin.publicKey app) = Ok true ->
  JSON_parse body = Ok payload ->
  get_prop payload (js "type") = Ok (VNum 1) ->
  let hook := run (Plugin.onRequest app request) start ctx in
  let served := run (Plugin.lifecycle app request) start ctx in
  hook.2 = Ok (VObj [(js "type", VNum 1)])
  /\ hook.1.2 = Context.mk (Some 200) (Context.store ctx)
  /\ served.2 = Ok (inl (VObj [(js "type", VNum 1)]))
  /\ served.1.2 = Context.mk (Some 200) (Context.store ctx)
  /\ Plugin.router_of served.2 = None.
Proof.
  intros Hm Hs Ht Hs0 Ht0 Hbody Hv Hp Hty hook served.
  destruct signature as [|s0 signature]; [done|].
  destruct timestamp as [|t0 timestamp]; [done|].
  destruct (get_prop_defined _ _ (js "id") _ Hty) as [id Hid].
  assert (Hhook : exists w,
             hook = (w, Context.mk (Some 200) (Context.store ctx),
                     Ok (VObj [(js "type", VNum 1)]))).
  { subst hook. enter_hook Hm Hs Ht Hbody. rewrite Hv. exec. rewrite Hp. exec.
    rewrite Hty. exec. rewrite Hid. exec. cbn [strict_eq_num Z.eqb Pos.eqb]. eauto. }
  destruct Hhook as (w & Hhook).
  assert (Hserved : served.1.2 = Context.mk (Some 200) (Context.store ctx)
                    /\ served.2 = Ok (inl (VObj [(js "type", VNum 1)]))).
  { subst served. by erewrite lifecycle_returned by (exact Hhook || done). }
  destruct Hserved as [Hctx Hres]. rewrite Hhook, Hctx, Hres. by cbn.
Qed.

End PluginFacts.

(* ===================================================================== *)
(** * The event router: the reply family *)
(* ===================================================================== *)

Section ReplyFacts.
Context `{Runtime}.

Ltac run_operation op i :=
  destruct op; cbn [Operation.perform Operation.promise_of Operation.call_of
                    Operation.failure];
  unfold DiscordHelper.reply, DiscordHelper.deferReply, DiscordHelper.editReply,
    DiscordHelper.followUp, DiscordHelper.require_repliable, DiscordHelper.fail_with;
  destruct (Interaction.isRepliable i); cbn [negb]; exec.

(** C3. On an interaction that is not repliable, each of [reply],
    [deferReply], [editReply] and [followUp] throws an
    [InteractionNotRepliableError] without making any platform call (and
    without touching the helper). On a repliable one the platform call is
    made once; if it fails with [e], the operation throws a
    [DiscordInteractionError] which carries the interaction's id and type
    and whose message wraps [e]: the verb of the operation, a colon, and
    [e.message] when [e] is an [Error] instance, [String(e)] otherwise;
    [e] itself is handed to the logger with that message. If the call
    succeeds, so does the operation. *)
Theorem reply_family_failure_contract (op : Operation.t) (i : Interaction.t)
    (self : DiscordHelper.Self) (start : Z) :
  let out := run (Operation.perform op i) start self in
  if Interaction.isRepliable i then
    platform_calls (trace out.1.1) = [Operation.call_of op]
    /\ match settles_with (Operation.promise_of op i) with
       | Throw e =>
           let wrapped :=
             js (Operation.failure op) ++ js ": "
             ++ match e with
                | VErr underlying => message underlying
                | _ => String_ e
                end in
           let error :=
             Errors.new_DiscordInteractionError wrapped
               (Some (Interaction.id i))
               (InteractionType (Interaction.type i)) in
           out.2 = Throw (VErr error)
           /\ cls error = DiscordInteractionError
           /\ message error = wrapped
           /\ interactionId error = Some (Interaction.id i)
           /\ interactionType error = InteractionType (Interaction.type i)
           /\ last (logger_calls (trace out.1.1))
              = Some (start + Z.of_N (settles_after (Operation.promise_of op i)),
                      DiscordLogger.Error wrapped e)
       | Ok _ => out.2 = Ok tt
       end
  else
    let error :=
      Errors.new_InteractionNotRepliableError
        (InteractionType (Interaction.type i)) in
    out.2 = Throw (VErr error)
    /\ cls error = InteractionNotRepliableError
    /\ Errors.instanceof (VErr error) DiscordInteractionError = true
    /\ platform_calls (trace out.1.1) = []
    /\ trace out.1.1 = [ELogger start (DiscordLogger.Error (message error) VUndefined)]
    /\ out.1.2 = self.
Proof.
  intros out. subst out. run_operation op i;
    try (repeat split; reflexivity);
    match goal with
    | |- context [settles_with ?p] => destruct (settles_with p) as [[]|e]
    end; exec; repeat split; reflexivity.
Qed.

(** C9. A successful [reply] stores [{type: 4, data: message}] and a
    successful [deferReply] stores [{type: 5, data: options}] as the
    response; a failed one leaves the stored response as it was, and
    [editReply] and [followUp] leave it as it was in every case. *)
Theorem response_record_frame (op : Operation.t) (i : Interaction.t)
    (self : DiscordHelper.Self) (start : Z) :
  let out := run (Operation.perform op i) start self in
  let stored := DiscordHelper.response out.1.2 in
  match op with
  | Operation.Reply message =>
      if is_ok out.2
      then stored = VObj [(js "type", VNum 4); (js "data", Message.to_value message)]
      else stored = DiscordHelper.response self
  | Operation.DeferReply options =>
      if is_ok out.2
      then stored = VObj [(js "type", VNum 5); (js "data", DeferOptions.to_value options)]
      else stored = DiscordHelper.response self
  | Operation.EditReply _ | Operation.FollowUp _ =>
      stored = DiscordHelper.response self
  end.
Proof.
  intros out stored. subst stored out. run_operation op i;
    try reflexivity;
    match goal with
    | |- context [settles_with ?p] => destruct (settles_with p) as [[]|e]
    end; exec; reflexivity.
Qed.

End ReplyFacts.

(* ===================================================================== *)
(** * The event router: registration and dispatch *)
(* ===================================================================== *)

Section DispatchFacts.
Context `{Runtime}.

(** ** Observations on lists of events *)

Lemma invoked_app (a b : list event) : invoked (a ++ b) = invoked a ++ invoked b.
Proof. apply omap_app. Qed.

Lemma logger_calls_app (a b : list event) :
  logger_calls (a ++ b) = logger_calls a ++ logger_calls b.
Proof. apply omap_app. Qed.


Lemma invoked_handlers (hs : list InteractionHandler) :
  invoked (map EHandler hs) = hs.
Proof. unfold invoked. induction hs as [|h hs IH]; [done|]. simpl. by f_equal. Qed.

Lemma logger_calls_handlers (hs : list InteractionHandler) :
  logger_calls (map EHandler hs) = [].
Proof. unfold logger_calls. induction hs as [|h hs IH]; [done|]. by simpl. Qed.

(** ** Callbacks that throw *)

Lemma first_throw_app (i : Interaction.t) (a b : list InteractionHandler) :
  first_throw i (a ++ b)
  = match first_throw i a with
    | Some e => Some e
    | None => first_throw i b
    end.
Proof.
  induction a as [|h a IH]; [done|]. simpl. by destruct (h i).
Qed.

Lemma until_throw_app (i : Interaction.t) (a b : list InteractionHandler) :
  until_throw i (a ++ b)
  = match first_throw i a with
    | Some _ => until_throw i a
    | None => a ++ until_throw i b
    end.
Proof.
  induction a as [|h a IH]; [done|]. simpl. unfold returns.
  destruct (h i); [|done]. rewrite IH. by destruct (first_throw i a).
Qed.

Lemma first_throw_returns (i : Interaction.t) (hs : list InteractionHandler) :
  first_throw i hs = None <-> forallb (returns i) hs = true.
Proof.
  induction hs as [|h hs IH]; [done|]. simpl. unfold returns at 1.
  destruct (h i); simpl; [done|]. split; discriminate.
Qed.

Lemma until_throw_returns (i : Interaction.t) (hs : list InteractionHandler) :
  forallb (returns i) hs = true -> until_throw i hs = hs.
Proof.
  induction hs as [|h hs IH]; [done|]. simpl.
  destruct (returns i h); simpl; [|discriminate]. intros Hall. by rewrite IH.
Qed.


Lemma returned_length (i : Interaction.t) (hs : list InteractionHandler) :
  forallb (returns i) hs = true -> length (returned i hs) = length hs.
Proof.
  unfold returned, returns. induction hs as [|h hs IH]; [done|]. simpl.
  destruct (h i); simpl; [|discriminate]. intros Hall. f_equal. by apply IH.
Qed.

(** ** Rejections *)



(** ** Registration *)

(** [on] appends the callback to the list of its category, leaves the
    other categories as they were, and does not throw. *)
Lemma on_registers (k : string) (h : InteractionHandler) (self : DiscordHelper.Self)
    (start : Z) :
  let out := run (DiscordHelper.on k h) start self in
  out.2 = Ok tt
  /\ DiscordHelper.registered out.1.2 k = DiscordHelper.registered self k ++ [h]
  /\ (forall k', k' <> k ->
        DiscordHelper.registered out.1.2 k' = DiscordHelper.registered self k')
  /\ DiscordHelper.interaction out.1.2 = DiscordHelper.interaction self
  /\ DiscordHelper.response out.1.2 = DiscordHelper.response self.
Proof.
  intros out. subst out. unfold DiscordHelper.on. exec.
  destruct (bool_decide (is_Some (DiscordHelper.handlers self !! k))) eqn:Hhas;
    cbn [negb]; exec;
    unfold DiscordHelper.registered; cbn [DiscordHelper.set_handlers
      DiscordHelper.handlers DiscordHelper.interaction DiscordHelper.response];
    (split; [done|]).
  - split; [by rewrite lookup_insert_eq|]. split; [|done].
    intros k' Hne. by rewrite lookup_insert_ne.
  - apply bool_decide_eq_false, eq_None_not_Some in Hhas.
    split; [by rewrite !lookup_insert_eq, Hhas|]. split; [|done].
    intros k' Hne. by rewrite !lookup_insert_ne.
Qed.

(** ** Dispatch *)

(** The loop calls the callbacks in order and stops after the first that
    throws. *)
Lemma call_each_run (hs : list InteractionHandler) (i : Interaction.t)
    (promises : list (option Promise)) (w : World) (self : DiscordHelper.Self) :
  DiscordHelper.call_each hs i promises (w, self)
  = (mkWorld (trace w ++ map EHandler (until_throw i hs)) (clock w), self,
     match first_throw i hs with
     | Some e => Throw e
     | None => Ok (promises ++ returned i hs)
     end).
Proof.
  revert promises w.
  induction hs as [|h more IH]; intros promises w.
  - destruct w. cbn. by rewrite !app_nil_r.
  - cbn [DiscordHelper.call_each until_throw first_throw]. unfold returns. exec.
    destruct (h i) as [p|e] eqn:Hh; [|reflexivity].
    rewrite IH. cbn [trace clock map]. rewrite <- !app_assoc.
    unfold returned. simpl. by rewrite Hh.
Qed.

Lemma quiet_handlers (hs : list InteractionHandler) : quiet (map EHandler hs).
Proof. unfold quiet. by rewrite logger_calls_handlers. Qed.

Lemma quiet_app (a b : list event) : quiet a -> quiet b -> quiet (a ++ b).
Proof.
  unfold quiet. intros [Ha1 Ha2] [Hb1 Hb2].
  by rewrite logger_calls_app, !filter_app, Ha1, Ha2, Hb1, Hb2.
Qed.

Lemma collect_run (self : DiscordHelper.Self) (i : Interaction.t) (w : World)
    (s : DiscordHelper.Self) :
  exists evs,
    DiscordHelper.collect self i (w, s)
    = (mkWorld (trace w ++ evs) (clock w), s,
       match first_throw i (selected self i) with
       | Some e => Throw e
       | None => Ok (returned i (selected self i), length (selected self i))
       end)
    /\ invoked evs = until_throw i (selected self i)
    /\ quiet evs.
Proof.
  unfold DiscordHelper.collect, selected.
  set (ws := DiscordHelper.registered self "*").
  rewrite first_throw_app, until_throw_app. unfold returned. rewrite omap_app.
  fold (returned i ws). rewrite length_app.
  assert (Hws : (if (0 <? length ws)%nat
                 then promises ← DiscordHelper.call_each ws i [];
                      mret (promises, length ws)
                 else mret ([], 0%nat)) (w, s)
                = (mkWorld (trace w ++ map EHandler (until_throw i ws)) (clock w), s,
                   match first_throw i ws with
                   | Some e => Throw e
                   | None => Ok (returned i ws, length ws)
                   end)).
  { destruct ws as [|w0 ws'].
    - destruct w. cbn. by rewrite app_nil_r.
    - cbn [length Nat.ltb Nat.leb]. exec. rewrite call_each_run. cbn [trace clock].
      by destruct (first_throw i (w0 :: ws')). }
  unfold mbind at 1. unfold M_bind at 1. rewrite Hws. clear Hws.
  destruct (first_throw i ws) as [e|] eqn:Hthrow.
  { eexists. split; [reflexivity|]. rewrite invoked_handlers. split; [done|].
    apply quiet_handlers. }
  apply first_throw_returns, until_throw_returns in Hthrow. rewrite Hthrow.
  destruct (DiscordHelper.handlerKey i) as [k|].
  2:{ exists (map EHandler ws). exec. rewrite !app_nil_r, Nat.add_0_r.
      split; [reflexivity|]. rewrite invoked_handlers. split; [done|].
      apply quiet_handlers. }
  destruct (DiscordHelper.registered self k) as [|k0 ks'] eqn:Hks.
  { exists (map EHandler ws). cbn [length Nat.ltb Nat.leb]. exec.
    rewrite !app_nil_r, Nat.add_0_r.
    split; [reflexivity|]. rewrite invoked_handlers. split; [done|].
    apply quiet_handlers. }
  cbn [length Nat.ltb Nat.leb]. exec. rewrite call_each_run. cbn [trace clock].
  eexists (map EHandler ws ++ [ELogger (clock w) _] ++ map EHandler (until_throw i (k0 :: ks'))).
  split.
  { rewrite <- !app_assoc. by destruct (first_throw i (k0 :: ks')). }
  split.
  { rewrite !invoked_app, !invoked_handlers. reflexivity. }
  apply quiet_app; [apply quiet_handlers|].
  apply quiet_app; [done|apply quiet_handlers].
Qed.

(** The closing block rethrows the earliest rejection after logging it,
    or logs the success. *)
Lemma settle_run (startTime : Z) (promises : list (option Promise)) (total : nat)
    (w : World) (s : DiscordHelper.Self) :
  DiscordHelper.settle startTime promises total (w, s)
  = match first_rejection promises with
    | Some (d, e) =>
        let now := clock w + Z.of_N d in
        (mkWorld (trace w
                  ++ [ELogger now
                        (DiscordLogger.Error
                           (js "Handler execution failed after "
                            ++ DiscordHelper.ms (now - startTime)) e)])
                 now, s, Throw e)
    | None =>
        let now := clock w + Z.of_N (last_settlement promises) in
        (mkWorld (trace w
                  ++ [ELogger now
                        (DiscordLogger.Success
                           (js "All handlers completed successfully")
                           (VObj [(js "totalHandlers", VNum (Z.of_nat total));
                                  (js "duration",
                                   VStr (DiscordHelper.ms (now - startTime)))]))])
                 now, s, Ok tt)
    end.
Proof.
  unfold DiscordHelper.settle, Promise_all. destruct w as [tr now].
  by destruct (first_rejection promises) as [[d e]|]; exec.
Qed.

(** A run of [handle] on a held interaction: two opening lines, the
    collecting blocks, and, unless a callback threw, the closing block. *)
Lemma handle_run (self : DiscordHelper.Self) (i : Interaction.t) (start : Z) :
  DiscordHelper.interaction self = Some i ->
  exists evs,
    invoked evs = until_throw i (selected self i)
    /\ quiet evs
    /\ run DiscordHelper.handle start self
       = match first_throw i (selected self i) with
         | Some e => (mkWorld evs start, self, Throw e)
         | None =>
             DiscordHelper.settle start (returned i (selected self i))
               (length (selected self i)) (mkWorld evs start, self)
         end.
Proof.
  intros Hi. unfold DiscordHelper.handle. exec. rewrite Hi. exec.
  match goal with
  | |- context [DiscordHelper.collect self i (?w, self)] =>
      destruct (collect_run self i w self) as (evs & -> & Hinv & Hquiet)
  end.
  cbn [trace clock].
  eexists ([_; _] ++ evs). split_and!; cycle 2.
  - by destruct (first_throw i (selected self i)).
  - by rewrite invoked_app.
  - by apply quiet_app.
Qed.




(** What the logger prints for a run ends with what it prints for the
    last call made to it. *)
Lemma console_of_snoc (logger : DiscordLogger.t) (evs : list event) (now : Z)
    (c : DiscordLogger.call) :
  console_of logger (evs ++ [ELogger now c])
  = console_of logger evs ++ DiscordLogger.run logger now c.
Proof.
  unfold console_of. rewrite flat_map_app. simpl. by rewrite app_nil_r.
Qed.

(** Registering callbacks one after the other on a helper leaves, under
    each category, the callbacks given for it, in the order given. *)
Lemma registering_registered (regs : list (string * InteractionHandler))
    (self : DiscordHelper.Self) (k : string) :
  DiscordHelper.registered (registering regs self) k
  = DiscordHelper.registered self k
    ++ (filter (fun r => r.1 = k) regs).*2.
Proof.
  revert self. induction regs as [|[k' h] regs IH]; intros self.
  - by rewrite app_nil_r.
  - change (registering ((k', h) :: regs) self)
      with (registering regs (run (DiscordHelper.on k' h) 0 self).1.2).
    rewrite IH.
    destruct (on_registers k' h self 0) as (_ & Hsame & Hother & _).
    rewrite filter_cons. cbn [fst]. destruct (decide (k' = k)) as [->|Hne].
    + rewrite Hsame, <- app_assoc. reflexivity.
    + by rewrite Hother.
Qed.

End DispatchFacts.

(* ===================================================================== *)
(** * Concrete runs *)
(* ===================================================================== *)

Section ConcreteRuns.
Import Demo.




(** A verified handshake. *)
Lemma handshake_acknowledged_witness :
  let request := post [("x-signature-ed25519", js "good");
                       ("x-signature-timestamp", js "1700000000")] ping_body in
  let hook := run (Plugin.onRequest app request) 0 fresh in
  let served := run (Plugin.lifecycle app request) 0 fresh in
  Request.method request = "POST"
  /\ Request.headers request !! "x-signature-ed25519" = Some (js "good")
  /\ Request.headers request !! "x-signature-timestamp" = Some (js "1700000000")
  /\ Request.text request = Ok ping_body
  /\ verifyKey ping_body (js "good") (js "1700000000") (Plugin.publicKey app) = Ok true
  /\ JSON_parse ping_body = Ok (VObj [(js "type", VNum 1)])
  /\ get_prop (VObj [(js "type", VNum 1)]) (js "type") = Ok (VNum 1)
  /\ hook.2 = Ok (VObj [(js "type", VNum 1)])
  /\ hook.1.2 = Context.mk (Some 200) Store.initial
  /\ Plugin.router_of served.2 = None.
Proof.
  intros request hook served.
  assert (Hm : Request.method request = "POST") by reflexivity.
  assert (Hs : Request.headers request !! "x-signature-ed25519" = Some (js "good"))
    by (vm_compute; reflexivity).
  assert (Ht : Request.headers request !! "x-signature-timestamp"
               = Some (js "1700000000")) by (vm_compute; reflexivity).
  assert (Hb : Request.text request = Ok ping_body) by reflexivity.
  assert (Hv : verifyKey ping_body (js "good") (js "1700000000")
                 (Plugin.publicKey app) = Ok true) by (vm_compute; reflexivity).
  assert (Hp : JSON_parse ping_body = Ok (VObj [(js "type", VNum 1)]))
    by (vm_compute; reflexivity).
  assert (Hty : get_prop (VObj [(js "type", VNum 1)]) (js "type") = Ok (VNum 1))
    by (vm_compute; reflexivity).
  destruct (handshake_acknowledged app request fresh 0 _ _ _ _ Hm Hs Ht
              ltac:(discriminate) ltac:(discriminate) Hb Hv Hp Hty)
    as (Hres & Hctx & _ & _ & Hrouter).
  repeat split; assumption.
Defined.

(** A dump of 6002 code units is cut to 5000 and the marker. *)
Lemma logData_truncates_at_5000_witness :
  let data := VStr (replicate 6000 65%N) in
  let c := DiscordLogger.Debug (js "Full interaction payload") data in
  DiscordLogger.enabled logger = true
  /\ dumped c = Some data
  /\ length (JSON_stringify data) = 6002%nat
  /\ printed_text (DiscordLogger.logData logger data)
     = take 5000 (JSON_stringify data) ++ 10%N :: js "... (truncated)".
Proof.
  intros data c.
  assert (Hon : DiscordLogger.enabled logger = true) by reflexivity.
  assert (Hd : dumped c = Some data) by (vm_compute; reflexivity).
  assert (Hlen : length (JSON_stringify data) = 6002%nat) by (vm_compute; reflexivity).
  destruct (logData_truncates_at_5000 logger 0 c data Hon Hd) as [_ Hcut].
  rewrite Hlen in Hcut. cbn [Nat.ltb Nat.leb] in Hcut.
  destruct Hcut as [Hcut _].
  repeat split; assumption.
Defined.





(** A button with the same kind of registrations: the command callback
    is not called. *)
Example handle_button_skips_command :
  let self := register [("*", h_void); ("command", h_async); ("button", h_void)]
                       (helper button) in
  invoked (trace (run DiscordHelper.handle 100 self).1.1) = [h_void; h_void].
Proof. vm_compute. reflexivity. Qed.

(** A reply to a handshake is refused before any platform call; a reply
    to a command is recorded as a type 4 response. *)
Example reply_to_ping_refused :
  let out := run (DiscordHelper.reply ping (Message.mk (Some (js "Pong!")) None None))
                 0 (helper ping) in
  is_ok out.2 = false /\ platform_calls (trace out.1.1) = [].
Proof. vm_compute. by repeat split. Qed.

Example reply_to_command_recorded :
  let message := Message.mk (Some (js "Pong!")) None None in
  let out := run (DiscordHelper.reply command message) 0 (helper command) in
  out.2 = Ok tt
  /\ DiscordHelper.response out.1.2
     = VObj [(js "type", VNum 4); (js "data", Message.to_value message)]
  /\ clock out.1.1 = 20.
Proof. vm_compute. by repeat split. Qed.

(** A verified command is stored and handed to a new helper. *)
Example command_reaches_helper :
  let request := post [("x-signature-ed25519", js "good");
                       ("x-signature-timestamp", js "1700000000")] command_body in
  let served := run (Plugin.lifecycle app request) 0 fresh in
  DiscordHelper.interaction <$> Plugin.router_of served.2
  = Some (Some (VObj [(js "type", VNum 2)])).
Proof. vm_compute. reflexivity. Qed.

(** The other exits of the hook: a request that is not a POST passes
    through untouched; a verified body that is not JSON, or is [null], is
    answered 400. *)
Example get_passes_through :
  run (Plugin.lifecycle app (Request.mk "GET" ∅ (Ok []))) 0 fresh
  = (mkWorld [] 0, fresh, Ok (inr None)).
Proof. vm_compute. reflexivity. Qed.

Example verified_garbage_is_400 :
  let request := post [("x-signature-ed25519", js "good");
                       ("x-signature-timestamp", js "1700000000")] (js "<html>") in
  let hook := run (Plugin.onRequest app request) 0 fresh in
  hook.2 = Ok (Plugin.error_body "Invalid JSON body")
  /\ hook.1.2 = Context.mk (Some 400) Store.initial.
Proof. vm_compute. by repeat split. Qed.

Example verified_null_is_400 :
  let request := post [("x-signature-ed25519", js "good");
                       ("x-signature-timestamp", js "1700000000")] null_body in
  let hook := run (Plugin.onRequest app request) 0 fresh in
  hook.2 = Ok (Plugin.error_body "Invalid JSON body")
  /\ hook.1.2 = Context.mk (Some 400) Store.initial.
Proof. vm_compute. by repeat split. Qed.

(** Construction without a bot token fails and names it. *)
Example missing_bot_token :
  Plugin.discord (DiscordOptions.mk (Some (js "pk")) None (Some (js "app")) (Some true))
  = Throw (VErr (Errors.new_ConfigurationError
                   (js "botToken is required. Get it from Discord Developer Portal.")
                   (Some (js "botToken")))).
Proof. reflexivity. Qed.

End ConcreteRuns.

(* ===================================================================== *)
(** * More on the logger *)
(* ===================================================================== *)

Section LoggerLines.
Context `{Runtime}.

(** Splitting distributes over a line feed. *)
Lemma split_lines_feed (a b : jsstring) :
  split_lines (a ++ 10%N :: b) = split_lines a ++ split_lines b.
Proof.
  induction a as [|c a IH]; [reflexivity|].
  cbn [Datatypes.app split_lines]. rewrite IH.
  destruct (split_lines_cons a) as (l & ls & ->).
  by destruct (c =? 10)%N.
Qed.

Lemma split_lines_last (s : jsstring) :
  exists init final, split_lines s = init ++ [final].
Proof.
  destruct (split_lines_cons s) as (l & ls & ->).
  destruct (exists_last (l := l :: ls)) as (init & final & ->); [done|eauto].
Qed.

(** The index test of [logData] picks the last line and no other. *)
Lemma imap_tree_lines (init : list jsstring) (final : jsstring) :
  imap (fun index line =>
          let isLast := bool_decide (index = (length (init ++ [final]) - 1)%nat) in
          let prefix := js "  " ++ (if isLast then DiscordLogger.glyph_last
                                    else DiscordLogger.glyph_branch) in
          console_log (DiscordLogger.colors.dim ++ prefix
                       ++ DiscordLogger.colors.reset ++ js " " ++ line))
       (init ++ [final])
  = (tree_line false <$> init) ++ [tree_line true final].
Proof.
  rewrite imap_app, length_app. cbn [length imap]. f_equal.
  - rewrite <- (imap_const (tree_line false)). apply imap_ext.
    intros index line Hin. apply lookup_lt_Some in Hin. cbn beta zeta.
    unfold jsstring in *. case_bool_decide; [lia|reflexivity].
  - unfold jsstring in *. case_bool_decide; [reflexivity|lia].
Qed.

Lemma logData_tree (data : value) :
  exists init final,
    split_lines (DiscordLogger.stringified data) = init ++ [final]
    /\ DiscordLogger.logData (DiscordLogger.new true) data
       = (tree_line false <$> init) ++ [tree_line true final].
Proof.
  destruct (split_lines_last (DiscordLogger.stringified data)) as (init & final & Hsplit).
  exists init, final. split; [done|].
  unfold DiscordLogger.logData. cbn [DiscordLogger.enabled negb].
  rewrite Hsplit. apply imap_tree_lines.
Qed.

(** X1. An enabled logger prints a data dump one console line per line of
    the (possibly truncated) text, all through [console.log]: every line
    but the last behind the branch connector, the last behind the
    terminal connector; a disabled logger prints nothing. *)
Theorem logData_prints_a_tree (data : value) :
  (exists init final,
      split_lines (DiscordLogger.stringified data) = init ++ [final]
      /\ DiscordLogger.logData (DiscordLogger.new true) data
         = (tree_line false <$> init) ++ [tree_line true final])
  /\ DiscordLogger.logData (DiscordLogger.new false) data = [].
Proof. split; [apply logData_tree|reflexivity]. Qed.

(** X2. The last line of a dump: for a serialization of more than 5000
    code units it is the marker line "... (truncated)" behind the terminal
    connector, one line more than the first 5000 code units have;
    otherwise it is the last line of the serialization. *)
Theorem logData_last_line (data : value) :
  let serialized := JSON_stringify data in
  let printed := DiscordLogger.logData (DiscordLogger.new true) data in
  if (5000 <? length serialized)%nat
  then last printed = Some (tree_line true (js "... (truncated)"))
       /\ length printed = S (length (split_lines (take 5000 serialized)))
  else last printed = tree_line true <$> last (split_lines serialized)
       /\ length printed = length (split_lines serialized).
Proof.
  intros serialized printed.
  destruct (logData_tree data) as (init & final & Hsplit & Hprinted).
  subst printed. rewrite Hprinted, last_snoc, length_app, length_fmap. cbn [length].
  revert Hsplit. unfold DiscordLogger.stringified, DiscordLogger.maxDataLength,
    substring0, DiscordLogger.truncation_marker. fold serialized.
  destruct (5000 <? length serialized)%nat.
  - rewrite split_lines_feed.
    change (split_lines (js "... (truncated)")) with [js "... (truncated)"].
    intros Hsplit. apply app_inj_tail in Hsplit as [<- <-]. split; [done|lia].
  - intros ->. rewrite last_snoc, length_app. cbn [length]. split; [done|lia].
Qed.

End LoggerLines.

Section LoggerLevels.
Context `{Runtime}.

Lemma length_slice {A} (from to : nat) (l : list A) :
  length (slice from to l) = Nat.min (to - from) (length l - from).
Proof. unfold slice. by rewrite length_take, length_drop. Qed.

Lemma forallb_imap {A B} (p : B -> bool) (f : nat -> A -> B) (l : list A) :
  (forall i x, p (f i x) = true) -> forallb p (imap f l) = true.
Proof.
  revert f. induction l as [|x l IH]; intros f Hp; [done|].
  rewrite imap_cons. cbn [forallb]. rewrite Hp. apply IH. intros i y. apply Hp.
Qed.

(** The index test of [error] picks the last line shown and no other. *)
Lemma imap_stack_lines (lines : list jsstring) :
  imap (fun i line =>
          let prefix :=
            if bool_decide (i = (length lines - 1)%nat)
            then DiscordLogger.glyph_last else DiscordLogger.glyph_branch in
          console_error (js "  " ++ DiscordLogger.colors.dim ++ prefix
                         ++ DiscordLogger.colors.reset ++ js " " ++ trim line))
       lines
  = (stack_line false <$> removelast lines)
    ++ match last lines with
       | Some final => [stack_line true final]
       | None => []
       end.
Proof.
  destruct (decide (lines = [])) as [->|Hne]; [done|].
  destruct (exists_last Hne) as (init & final & ->).
  rewrite removelast_last, last_snoc, imap_app, length_app. cbn [length imap]. f_equal.
  - rewrite <- (imap_const (stack_line false)). apply imap_ext.
    intros index line Hin. apply lookup_lt_Some in Hin. cbn beta zeta.
    unfold jsstring in *. case_bool_decide; [lia|reflexivity].
  - unfold jsstring in *. case_bool_decide; [reflexivity|lia].
Qed.

(** X3. For an [Error] instance the enabled logger's [error] prints the
    formatted line, then the error's message behind a branch connector,
    then lines 2 to 4 of its stack (at most three, none when the stack is
    missing or empty): each trimmed, the last one shown behind the
    terminal connector and the ones before it behind the branch
    connector. All of it goes through [console.error], and the value is
    never dumped as JSON. *)
Theorem error_prints_message_and_stack (now : Z) (message : jsstring) (e : ErrorObject) :
  let printed := DiscordLogger.error (DiscordLogger.new true) now message (VErr e) in
  let stackLines :=
    if truthy_str (stack e) then length (split_lines (default [] (stack e))) else 1%nat in
  let shown := shown_stack (stack e) in
  printed
  = [console_error (DiscordLogger.formatLog now "ERROR" DiscordLogger.colors.red message);
     console_error (js "  " ++ DiscordLogger.colors.red ++ DiscordLogger.glyph_branch
                    ++ DiscordLogger.colors.reset ++ js " " ++ JS.message e)]
    ++ (stack_line false <$> removelast shown)
    ++ match last shown with
       | Some final => [stack_line true final]
       | None => []
       end
  /\ take 2 printed
     = [console_error (DiscordLogger.formatLog now "ERROR" DiscordLogger.colors.red message);
        console_error (js "  " ++ DiscordLogger.colors.red ++ DiscordLogger.glyph_branch
                       ++ DiscordLogger.colors.reset ++ js " " ++ JS.message e)]
  /\ length shown = Nat.min 3 (stackLines - 1)
  /\ length printed = (2 + Nat.min 3 (stackLines - 1))%nat
  /\ forallb is_console_error printed = true.
Proof.
  intros printed stackLines shown. subst printed stackLines shown.
  unfold DiscordLogger.error. cbn [DiscordLogger.enabled negb truthy].
  assert (Hshown : shown_stack (stack e)
                   = if truthy_str (stack e)
                     then slice 1 4 (split_lines (default [] (stack e))) else []).
  { unfold shown_stack, truthy_str. by destruct (stack e) as [[|c text]|]. }
  rewrite Hshown. destruct (truthy_str (stack e)); [|done].
  cbv zeta. rewrite imap_stack_lines.
  split; [done|]. split; [done|]. rewrite length_slice. split; [done|].
  split.
  - cbn [length Datatypes.app]. rewrite length_app, length_fmap.
    set (lines := slice 1 4 _).
    assert (Hlen : length lines = Nat.min 3 (length (split_lines (default [] (stack e))) - 1))
      by (subst lines; by rewrite length_slice).
    rewrite <- Hlen. clear Hlen.
    destruct (decide (lines = [])) as [->|Hne]; [done|].
    destruct (exists_last Hne) as (init & final & ->).
    rewrite removelast_last, last_snoc, length_app. cbn [length]. lia.
  - cbn [forallb andb is_console_error Datatypes.app]. rewrite forallb_app.
    apply andb_true_intro. split.
    + induction (removelast _) as [|l ls IH]; [done|]. by rewrite fmap_cons.
    + by destruct (last _).
Qed.

(** A disabled logger prints nothing for a whole run. *)
Lemma console_of_disabled_aux (evs : list event) :
  console_of (DiscordLogger.new false) evs = [].
Proof.
  unfold console_of. induction evs as [|ev evs IH]; [done|].
  cbn [flat_map]. rewrite IH, app_nil_r.
  destruct ev; try done. by apply run_disabled.
Qed.

(** X4. With logging off ([verbose] false) nothing is written to the
    console: not by any single logger operation, and so not by any run,
    whatever calls it made to the logger. *)
Theorem disabled_logger_is_silent (now : Z) (c : DiscordLogger.call) (evs : list event) :
  DiscordLogger.run (DiscordLogger.new false) now c = []
  /\ console_of (DiscordLogger.new false) evs = [].
Proof. split; [by apply run_disabled|apply console_of_disabled_aux]. Qed.

(** X5. A falsy data argument (undefined, null, false, 0, the empty
    string) is not dumped: each of the five level operations then prints
    its formatted line and nothing else, on the stream of its level. *)
Theorem falsy_data_is_not_dumped (now : Z) (message : jsstring) (data : value) :
  truthy data = false ->
  let logger := DiscordLogger.new true in
  DiscordLogger.info logger now message data
  = [console_log (DiscordLogger.formatLog now "INFO" DiscordLogger.colors.blue message)]
  /\ DiscordLogger.success logger now message data
     = [console_log (DiscordLogger.formatLog now "SUCCESS" DiscordLogger.colors.green message)]
  /\ DiscordLogger.warn logger now message data
     = [console_warn (DiscordLogger.formatLog now "WARN" DiscordLogger.colors.yellow message)]
  /\ DiscordLogger.error logger now message data
     = [console_error (DiscordLogger.formatLog now "ERROR" DiscordLogger.colors.red message)]
  /\ DiscordLogger.debug logger now message data
     = [console_log (DiscordLogger.formatLog now "DEBUG" DiscordLogger.colors.magenta message)].
Proof.
  intros Hfalsy logger. subst logger.
  unfold DiscordLogger.info, DiscordLogger.success, DiscordLogger.warn,
    DiscordLogger.error, DiscordLogger.debug.
  cbn [DiscordLogger.enabled negb]. by rewrite Hfalsy.
Qed.

End LoggerLevels.

(* ===================================================================== *)
(** * More on the error classes *)
(* ===================================================================== *)

Section ErrorClasses.
Context `{Runtime}.

(** X6. What [instanceof] answers for the errors the six constructors
    build, class by class: a [DiscordError] is an [Error]; a
    [SignatureVerificationError], a [DiscordInteractionError], a
    [RateLimitError] and a [ConfigurationError] are each a [DiscordError]
    and an [Error], and none of them is one of the others; an
    [InteractionNotRepliableError] is a [DiscordInteractionError], a
    [DiscordError] and an [Error], and nothing else. *)
Theorem instanceof_of_constructed_errors (message : jsstring)
    (given code field id type : option jsstring) (retryAfter : option Z)
    (c : ErrorClass) :
  Errors.instanceof (VErr (Errors.new_DiscordError message code)) c
  = match c with
    | Error_ | DiscordError => true
    | _ => false
    end
  /\ Errors.instanceof (VErr (Errors.new_SignatureVerificationError given)) c
     = match c with
       | Error_ | DiscordError | SignatureVerificationError => true
       | _ => false
       end
  /\ Errors.instanceof (VErr (Errors.new_DiscordInteractionError message id type)) c
     = match c with
       | Error_ | DiscordError | DiscordInteractionError => true
       | _ => false
       end
  /\ Errors.instanceof (VErr (Errors.new_RateLimitError given retryAfter)) c
     = match c with
       | Error_ | DiscordError | RateLimitError => true
       | _ => false
       end
  /\ Errors.instanceof (VErr (Errors.new_ConfigurationError message field)) c
     = match c with
       | Error_ | DiscordError | ConfigurationError => true
       | _ => false
       end
  /\ Errors.instanceof (VErr (Errors.new_InteractionNotRepliableError type)) c
     = match c with
       | Error_ | DiscordError | DiscordInteractionError
       | InteractionNotRepliableError => true
       | _ => false
       end.
Proof. by destruct c. Qed.

(** X7. The machine-readable code of an error depends on its class alone,
    not on the arguments of the constructor, and an
    [InteractionNotRepliableError] carries the code of its parent class
    and no interaction id: matching on the code cannot tell it from a
    [DiscordInteractionError], while [instanceof] can. *)
Theorem error_codes_by_class (message : jsstring) (given : option jsstring)
    (id type : option jsstring) (retryAfter : option Z) :
  code (Errors.new_SignatureVerificationError given)
  = Some (js "SIGNATURE_VERIFICATION_FAILED")
  /\ code (Errors.new_DiscordInteractionError message id type)
     = Some (js "INTERACTION_ERROR")
  /\ code (Errors.new_RateLimitError given retryAfter) = Some (js "RATE_LIMIT_EXCEEDED")
  /\ code (Errors.new_ConfigurationError message given)
     = Some (js "INVALID_CONFIGURATION")
  /\ code (Errors.new_InteractionNotRepliableError type)
     = code (Errors.new_DiscordInteractionError message id type)
  /\ interactionId (Errors.new_InteractionNotRepliableError type) = None
  /\ Errors.instanceof (VErr (Errors.new_InteractionNotRepliableError type))
       DiscordInteractionError = true
  /\ Errors.instanceof (VErr (Errors.new_DiscordInteractionError message id type))
       InteractionNotRepliableError = false.
Proof. by repeat split. Qed.

End ErrorClasses.

(* ===================================================================== *)
(** * More on the request hook *)
(* ===================================================================== *)

Section HookExits.
Context `{Runtime}.

Ltac enter_verifier Hreach :=
  destruct Hreach as (Hm & Hs & Ht & Hs0 & Ht0 & Hbody);
  match type of Hs0 with ?sig <> [] => destruct sig as [|? ?]; [done|] end;
  match type of Ht0 with ?ts <> [] => destruct ts as [|? ?]; [done|] end;
  unfold Plugin.onRequest; rewrite Hm, Hs, Ht;
  cbn [String.eqb Ascii.eqb Bool.eqb negb truthy_str orb];
  exec; rewrite Hbody; exec.


(** X9. A request that is not a POST passes through untouched: the hook
    calls nothing (not even the logger), sets no status, writes nothing,
    and the route receives whatever the derive stage makes of the store
    as it stands. *)
Theorem other_methods_pass_through (app : Plugin.t) (request : Request.t)
    (ctx : Context.t) (start : Z) :
  Request.method request <> "POST" ->
  run (Plugin.onRequest app request) start ctx = (mkWorld [] start, ctx, Ok VUndefined)
  /\ run (Plugin.lifecycle app request) start ctx
     = (mkWorld [] start, ctx, Ok (inr (Plugin.derive app (Context.store ctx)))).
Proof.
  intros Hm. apply String.eqb_neq in Hm.
  unfold Plugin.lifecycle, Plugin.onRequest. by rewrite Hm.
Qed.




(** X13. A verified body that parses to a payload whose [type] is not the
    number 1 is stored as it is and the hook returns nothing, leaving the
    status unset; the derive stage then constructs exactly one fresh
    helper bound to that payload and to the plugin's token, application
    id and logger, with no callback registered and a null response -
    unless the payload is falsy (0, false, the empty string), in which
    case it is stored but the route receives no helper. *)
Theorem verified_interaction_reaches_derive (app : Plugin.t) (request : Request.t)
    (ctx : Context.t) (start : Z) (signature timestamp body : jsstring)
    (payload type : value) :
  reaches_verifier request signature timestamp body ->
  verifyKey body signature timestamp (Plugin.publicKey app) = Ok true ->
  JSON_parse body = Ok payload ->
  get_prop payload (js "type") = Ok type ->
  strict_eq_num type 1 = false ->
  let hook := run (Plugin.onRequest app request) start ctx in
  let served := run (Plugin.lifecycle app request) start ctx in
  hook.2 = Ok VUndefined
  /\ hook.1.2 = Context.set_interaction payload ctx
  /\ served.1.2 = Context.set_interaction payload ctx
  /\ served.2
     = Ok (inr (if truthy payload
                then Some (DiscordHelper.mk (Plugin.botToken app) (Some payload) ∅
                             (Plugin.logger app) (Plugin.applicationId app) VNull)
                else None)).
Proof.
  intros Hreach Hv Hp Hty Hne hook served.
  destruct (get_prop_defined _ _ (js "id") _ Hty) as [id Hid].
  assert (Hhook : exists w, hook = (w, Context.set_interaction payload ctx, Ok VUndefined)).
  { subst hook. enter_verifier Hreach. rewrite Hv. exec. rewrite Hp. exec.
    rewrite Hty. exec. rewrite Hid. exec. rewrite Hne. exec. eauto. }
  destruct Hhook as [w Hhook]. rewrite Hhook. split; [done|]. split; [done|].
  subst served. unfold Plugin.lifecycle. revert Hhook. subst hook. exec. intros ->.
  cbn [Context.store Context.set_interaction]. unfold Plugin.derive.
  cbn [Store.discord_interaction]. by destruct (truthy payload).
Qed.

End HookExits.

(* ===================================================================== *)
(** * More on the event router *)
(* ===================================================================== *)

Section RouterShapes.
Context `{Runtime}.

(** The callbacks a run of [handle] calls. *)
Lemma handle_called (self : DiscordHelper.Self) (i : Interaction.t) (start : Z) :
  DiscordHelper.interaction self = Some i ->
  let out := run DiscordHelper.handle start self in
  invoked (trace out.1.1) = until_throw i (selected self i).
Proof.
  intros Hi out. subst out.
  destruct (handle_run self i start Hi) as (evs & Hinv & _ & ->).
  destruct (first_throw i (selected self i)); [done|].
  rewrite settle_run. cbn [trace clock].
  destruct (first_rejection _) as [[d e]|]; cbn [fst snd trace];
    by rewrite invoked_app, app_nil_r.
Qed.

(** X14. Without a held interaction [handle] is a no-op that succeeds: it
    calls the logger once, for a warning, calls none of the registered
    callbacks, lets no time pass and leaves the helper as it was. *)
Theorem handle_without_interaction (self : DiscordHelper.Self) (start : Z) :
  DiscordHelper.interaction self = None ->
  run DiscordHelper.handle start self
  = (mkWorld [ELogger start
                (DiscordLogger.Warn (js "No interaction to handle") VUndefined)]
             start, self, Ok tt)
  /\ invoked (trace (run DiscordHelper.handle start self).1.1) = [].
Proof.
  intros Hnone. unfold DiscordHelper.handle. exec. rewrite Hnone. by exec.
Qed.

(** X15. Each of the four select-menu shapes (string, user, role, channel)
    routes to the "select" category: for an interaction that is neither a
    command nor a button and passes one of the four tests, [handle] calls
    the wildcard callbacks and then the "select" callbacks, in
    registration order up to the first that throws, whatever is
    registered under the other categories. *)
Theorem handle_routes_select_menus (self : DiscordHelper.Self) (i : Interaction.t)
    (start : Z) :
  DiscordHelper.interaction self = Some i ->
  Interaction.isChatInputCommand i = false ->
  Interaction.isButton i = false ->
  Interaction.isStringSelectMenu i || Interaction.isUserSelectMenu i
  || Interaction.isRoleSelectMenu i || Interaction.isChannelSelectMenu i = true ->
  let out := run DiscordHelper.handle start self in
  invoked (trace out.1.1)
  = until_throw i (DiscordHelper.registered self "*"
                   ++ DiscordHelper.registered self "select").
Proof.
  intros Hi Hc Hb Hs out. subst out. rewrite (handle_called self i start Hi).
  unfold selected, DiscordHelper.handlerKey. by rewrite Hc, Hb, Hs.
Qed.

(** X16. The shapes tested last: an interaction that is no command, no
    button and no select menu routes to "modal" if it is a modal
    submission, else to "autocomplete" if it is an autocomplete request,
    and else to no category at all, in which case only the wildcard
    callbacks are called. *)
Theorem handle_routes_remaining_shapes (self : DiscordHelper.Self) (i : Interaction.t)
    (start : Z) :
  DiscordHelper.interaction self = Some i ->
  Interaction.isChatInputCommand i = false ->
  Interaction.isButton i = false ->
  Interaction.isStringSelectMenu i || Interaction.isUserSelectMenu i
  || Interaction.isRoleSelectMenu i || Interaction.isChannelSelectMenu i = false ->
  let wildcard := DiscordHelper.registered self "*" in
  invoked (trace (run DiscordHelper.handle start self).1.1)
  = until_throw i
      (if Interaction.isModalSubmit i
       then wildcard ++ DiscordHelper.registered self "modal"
       else if Interaction.isAutocomplete i
            then wildcard ++ DiscordHelper.registered self "autocomplete"
            else wildcard).
Proof.
  intros Hi Hc Hb Hs wildcard. rewrite (handle_called self i start Hi).
  unfold selected, DiscordHelper.handlerKey. rewrite Hc, Hb, Hs.
  destruct (Interaction.isModalSubmit i); [done|].
  destruct (Interaction.isAutocomplete i); [done|]. by rewrite app_nil_r.
Qed.

End RouterShapes.

Section RouterRegistration.
Context `{Runtime}.

(** X17. [on] never fails and changes one thing: it appends the callback
    at the end of the list of its category, creating the list if need be.
    The other categories, the held interaction and the stored response
    stay as they were, and the logger is called once, for a debug line
    naming the category. *)
Theorem on_appends_to_its_category (k : string) (h : InteractionHandler)
    (self : DiscordHelper.Self) (start : Z) :
  let out := run (DiscordHelper.on k h) start self in
  out.2 = Ok tt
  /\ DiscordHelper.registered out.1.2 k = DiscordHelper.registered self k ++ [h]
  /\ (forall k', k' <> k ->
        DiscordHelper.registered out.1.2 k' = DiscordHelper.registered self k')
  /\ DiscordHelper.interaction out.1.2 = DiscordHelper.interaction self
  /\ DiscordHelper.response out.1.2 = DiscordHelper.response self
  /\ out.1.1
     = mkWorld [ELogger start
                  (DiscordLogger.Debug (js "Handler registered")
                     (VObj [(js "interactionType", VStr (js k))]))] start.
Proof.
  intros out. destruct (on_registers k h self start) as (Hok & Hk & Hother & Hi & Hr).
  subst out. split_and!; try done.
  unfold DiscordHelper.on. exec.
  by destruct (negb (bool_decide (is_Some (DiscordHelper.handlers self !! k)))); exec.
Qed.

Lemma registering_interaction (regs : list (string * InteractionHandler))
    (self : DiscordHelper.Self) :
  DiscordHelper.interaction (registering regs self) = DiscordHelper.interaction self.
Proof.
  revert self. induction regs as [|[k h] regs IH]; intros self; [done|].
  change (registering ((k, h) :: regs) self)
    with (registering regs (run (DiscordHelper.on k h) 0 self).1.2).
  rewrite IH. by destruct (on_registers k h self 0) as (_ & _ & _ & -> & _).
Qed.

(** X18. Registration keeps order and duplicates: on a newly constructed
    helper, after any sequence of [on] calls, each category holds exactly
    the callbacks given for it, in the order given (a callback given twice
    is held twice), and a category nothing was given for is empty. *)
Theorem registrations_are_kept_in_order (regs : list (string * InteractionHandler))
    (botToken applicationId : jsstring) (interaction : option Interaction.t)
    (logger : DiscordLogger.t) (k : string) :
  let self :=
    registering regs (DiscordHelper.new botToken applicationId interaction logger) in
  DiscordHelper.registered self k = given_for k regs
  /\ DiscordHelper.interaction self = interaction.
Proof.
  intros self. subst self. rewrite registering_registered, registering_interaction.
  split; [|done]. unfold DiscordHelper.registered at 1.
  cbn [DiscordHelper.new DiscordHelper.handlers]. by rewrite lookup_empty.
Qed.

(** X19. Registration and dispatch compose: on a newly constructed helper
    holding an interaction, after any sequence of [on] calls, [handle]
    calls the callbacks given for "*" in the order given, then those given
    for the category of the interaction in the order given, up to the
    first that throws; callbacks given for other categories are never
    called. *)
Theorem dispatch_follows_registration_order
    (regs : list (string * InteractionHandler)) (botToken applicationId : jsstring)
    (i : Interaction.t) (logger : DiscordLogger.t) (start : Z) :
  let self :=
    registering regs (DiscordHelper.new botToken applicationId (Some i) logger) in
  invoked (trace (run DiscordHelper.handle start self).1.1)
  = until_throw i
      (given_for "*" regs
       ++ match DiscordHelper.handlerKey i with
          | Some k => given_for k regs
          | None => []
          end).
Proof.
  intros self.
  assert (Hi : DiscordHelper.interaction self = Some i)
    by (subst self; by rewrite registering_interaction).
  rewrite (handle_called self i start Hi).
  assert (Hreg : forall k, DiscordHelper.registered self k = given_for k regs).
  { intros k. subst self. rewrite registering_registered.
    unfold DiscordHelper.registered at 1.
    cbn [DiscordHelper.new DiscordHelper.handlers]. by rewrite lookup_empty. }
  unfold selected. rewrite Hreg.
  by destruct (DiscordHelper.handlerKey i) as [k|]; rewrite ?Hreg.
Qed.

End RouterRegistration.

Section ReplyFamily.
Context `{Runtime}.

Ltac run_reply op i :=
  destruct op; cbn [Operation.perform Operation.promise_of Operation.call_of
                    Operation.failure success_text];
  unfold DiscordHelper.reply, DiscordHelper.deferReply, DiscordHelper.editReply,
    DiscordHelper.followUp, DiscordHelper.require_repliable, DiscordHelper.fail_with;
  destruct (Interaction.isRepliable i); cbn [negb]; exec;
  try match goal with
      | |- context [settles_with ?p] => destruct (settles_with p) as [[]|?]
      end; exec.

(** X20. The reply operations touch nothing of the helper but the stored
    response: whatever the operation and its outcome, the registered
    callbacks, the held interaction, the logger and the identifiers are
    those from before. *)
Theorem reply_family_keeps_registry (op : Operation.t) (i : Interaction.t)
    (self : DiscordHelper.Self) (start : Z) :
  let out := run (Operation.perform op i) start self in
  out.1.2 = DiscordHelper.set_response (DiscordHelper.response out.1.2) self
  /\ DiscordHelper.handlers out.1.2 = DiscordHelper.handlers self
  /\ DiscordHelper.interaction out.1.2 = DiscordHelper.interaction self.
Proof.
  intros out. subst out. destruct self. by run_reply op i.
Qed.


(** X22. On an interaction that cannot be replied to and whose type number
    the platform's enumeration does not name (or names by the empty
    string), the error thrown by each reply operation says
    [Interaction of type "unknown" is not repliable] and keeps the
    interaction type as it was found. *)
Theorem not_repliable_unknown_type (op : Operation.t) (i : Interaction.t)
    (self : DiscordHelper.Self) (start : Z) :
  Interaction.isRepliable i = false ->
  truthy_str (InteractionType (Interaction.type i)) = false ->
  exists error,
    (run (Operation.perform op i) start self).2 = Throw (VErr error)
    /\ message error
       = js "Interaction of type " ++ quote ++ js "unknown" ++ quote
         ++ js " is not repliable"
    /\ interactionType error = InteractionType (Interaction.type i)
    /\ name error = js "InteractionNotRepliableError".
Proof.
  intros Hno Hname. eexists. split.
  - destruct op; cbn [Operation.perform];
      unfold DiscordHelper.reply, DiscordHelper.deferReply, DiscordHelper.editReply,
        DiscordHelper.followUp, DiscordHelper.require_repliable;
      rewrite Hno; cbn [negb]; exec; reflexivity.
  - unfold Errors.new_InteractionNotRepliableError. rewrite Hname. by cbn.
Qed.

(** X23. Deferring and then editing, as one sequence. On a repliable
    interaction: if the deferred acknowledgment fails, the sequence stops
    there - the edit is never sent and the stored response is as before;
    if it succeeds, both platform calls are made in that order, the
    stored response is the deferred descriptor [{type: 5, data: options}]
    whether or not the edit succeeds, and the sequence succeeds exactly
    when the edit does. *)
Theorem defer_then_edit (i : Interaction.t) (options : option DeferOptions.t)
    (message : Message.t) (self : DiscordHelper.Self) (start : Z) :
  Interaction.isRepliable i = true ->
  let out := run (DiscordHelper.deferReply i options;;
                  DiscordHelper.editReply i message) start self in
  let deferred := Interaction.deferReply i (DeferOptions.payload options) in
  let edited := Interaction.editReply i (Message.edit_payload message) in
  match settles_with deferred with
  | Throw _ =>
      is_ok out.2 = false
      /\ platform_calls (trace out.1.1) = [(call_deferReply, DeferOptions.payload options)]
      /\ DiscordHelper.response out.1.2 = DiscordHelper.response self
  | Ok _ =>
      platform_calls (trace out.1.1)
      = [(call_deferReply, DeferOptions.payload options);
         (call_editReply, Message.edit_payload message)]
      /\ DiscordHelper.response out.1.2
         = VObj [(js "type", VNum 5); (js "data", DeferOptions.to_value options)]
      /\ is_ok out.2 = is_ok (settles_with edited)
      /\ clock out.1.1
         = start + Z.of_N (settles_after deferred) + Z.of_N (settles_after edited)
  end.
Proof.
  intros Hrep out deferred edited. subst out deferred edited.
  unfold DiscordHelper.deferReply, DiscordHelper.editReply,
    DiscordHelper.require_repliable, DiscordHelper.fail_with.
  rewrite Hrep. cbn [negb]. exec.
  destruct (settles_with (Interaction.deferReply i _)) as [[]|e]; exec; [|done].
  by destruct (settles_with (Interaction.editReply i _)) as [[]|e]; exec.
Qed.

End ReplyFamily.

(* ===================================================================== *)
(** * Further concrete runs *)
(* ===================================================================== *)

Section FurtherRuns.
Import Demo.

(** The number 0 as data of a log call. *)
Lemma falsy_data_is_not_dumped_witness :
  truthy (VNum 0) = false
  /\ DiscordLogger.info logger 7 (js "count") (VNum 0)
     = [console_log (DiscordLogger.formatLog 7 "INFO" DiscordLogger.colors.blue
                       (js "count"))].
Proof.
  assert (Hfalsy : truthy (VNum 0) = false) by reflexivity.
  destruct (falsy_data_is_not_dumped 7 (js "count") (VNum 0) Hfalsy) as [Hinfo _].
  split; assumption.
Defined.

(** A GET request. *)
Lemma other_methods_pass_through_witness :
  let request := Request.mk "GET" ∅ (Ok []) in
  Request.method request <> "POST"
  /\ run (Plugin.onRequest app request) 0 fresh = (mkWorld [] 0, fresh, Ok VUndefined).
Proof.
  intros request.
  assert (Hm : Request.method request <> "POST") by discriminate.
  destruct (other_methods_pass_through app request fresh 0 Hm) as [Hhook _].
  split; assumption.
Defined.



Lemma signed_post_reaches_verifier (body : jsstring) :
  reaches_verifier (post signed body) (js "good") (js "1700000000") body.
Proof.
  unfold reaches_verifier. split; [reflexivity|].
  split; [vm_compute; reflexivity|]. split; [vm_compute; reflexivity|].
  split; [discriminate|]. split; [discriminate|reflexivity].
Defined.


(** A verified slash command. *)
Lemma verified_interaction_reaches_derive_witness :
  let request := post signed command_body in
  let payload := VObj [(js "type", VNum 2)] in
  let served := run (Plugin.lifecycle app request) 0 fresh in
  reaches_verifier request (js "good") (js "1700000000") command_body
  /\ verifyKey command_body (js "good") (js "1700000000") (Plugin.publicKey app) = Ok true
  /\ JSON_parse command_body = Ok payload
  /\ get_prop payload (js "type") = Ok (VNum 2)
  /\ strict_eq_num (VNum 2) 1 = false
  /\ served.1.2 = Context.set_interaction payload fresh
  /\ DiscordHelper.interaction <$> Plugin.router_of served.2 = Some (Some payload).
Proof.
  intros request payload served.
  pose proof (signed_post_reaches_verifier command_body) as Hreach.
  assert (Hv : verifyKey command_body (js "good") (js "1700000000")
                 (Plugin.publicKey app) = Ok true) by (vm_compute; reflexivity).
  assert (Hp : JSON_parse command_body = Ok payload) by (vm_compute; reflexivity).
  assert (Hty : get_prop payload (js "type") = Ok (VNum 2)) by (vm_compute; reflexivity).
  assert (Hne : strict_eq_num (VNum 2) 1 = false) by reflexivity.
  destruct (verified_interaction_reaches_derive app request fresh 0 _ _ _ _ _
              Hreach Hv Hp Hty Hne) as (_ & _ & Hctx & Hserved).
  split; [assumption|]. split; [assumption|]. split; [assumption|].
  split; [assumption|]. split; [assumption|]. split; [assumption|].
  subst served. rewrite Hserved. reflexivity.
Defined.

(** The same request changes the store, so it was verified. *)
Lemma store_written_only_when_verified_witness :
  let request := post signed command_body in
  let hook := run (Plugin.onRequest app request) 0 fresh in
  Context.store hook.1.2 <> Context.store fresh
  /\ exists signature timestamp body,
       Request.text request = Ok body
       /\ verifyKey body signature timestamp (Plugin.publicKey app) = Ok true.
Proof.
  intros request hook.
  assert (Hchanged : Context.store hook.1.2 <> Context.store fresh)
    by (vm_compute; discriminate).
  destruct (store_written_only_when_verified app request fresh 0 Hchanged)
    as (signature & timestamp & body & _ & _ & Hbody & Hv).
  split; [assumption|]. exists signature, timestamp, body. split; assumption.
Defined.

(** A helper that holds no interaction, with callbacks registered. *)
Lemma handle_without_interaction_witness :
  let self := register [("*", h_throw); ("command", h_async)]
                       (DiscordHelper.new (js "token") (js "app") None logger) in
  DiscordHelper.interaction self = None
  /\ (run DiscordHelper.handle 100 self).2 = Ok tt
  /\ invoked (trace (run DiscordHelper.handle 100 self).1.1) = [].
Proof.
  intros self.
  assert (Hnone : DiscordHelper.interaction self = None) by reflexivity.
  destruct (handle_without_interaction self 100 Hnone) as [Hrun Hinv].
  split; [assumption|]. split; [|assumption]. rewrite Hrun. reflexivity.
Defined.

(** A role select menu: the "select" callback is called, the "button" one
    is not. *)
Lemma handle_routes_select_menus_witness :
  let self := register [("select", h_async); ("button", h_throw); ("*", h_void)]
                       (helper role_select) in
  DiscordHelper.interaction self = Some role_select
  /\ Interaction.isChatInputCommand role_select = false
  /\ Interaction.isButton role_select = false
  /\ Interaction.isStringSelectMenu role_select || Interaction.isUserSelectMenu role_select
     || Interaction.isRoleSelectMenu role_select
     || Interaction.isChannelSelectMenu role_select = true
  /\ invoked (trace (run DiscordHelper.handle 100 self).1.1)
     = until_throw role_select [h_void; h_async].
Proof.
  intros self.
  assert (Hi : DiscordHelper.interaction self = Some role_select) by reflexivity.
  pose proof (handle_routes_select_menus self role_select 100 Hi eq_refl eq_refl eq_refl)
    as Hcalled.
  cbv zeta in Hcalled.
  assert (Hreg : DiscordHelper.registered self "*" ++ DiscordHelper.registered self "select"
                 = [h_void; h_async]) by (vm_compute; reflexivity).
  rewrite Hreg in Hcalled.
  repeat split; assumption.
Defined.

(** A modal submission: the "modal" callback is called, the
    "autocomplete" one is not. *)
Lemma handle_routes_remaining_shapes_witness :
  let self := register [("autocomplete", h_throw); ("modal", h_async); ("*", h_void)]
                       (helper modal) in
  DiscordHelper.interaction self = Some modal
  /\ Interaction.isChatInputCommand modal = false
  /\ Interaction.isButton modal = false
  /\ Interaction.isStringSelectMenu modal || Interaction.isUserSelectMenu modal
     || Interaction.isRoleSelectMenu modal || Interaction.isChannelSelectMenu modal = false
  /\ invoked (trace (run DiscordHelper.handle 100 self).1.1)
     = until_throw modal [h_void; h_async].
Proof.
  intros self.
  assert (Hi : DiscordHelper.interaction self = Some modal) by reflexivity.
  pose proof (handle_routes_remaining_shapes self modal 100 Hi eq_refl eq_refl eq_refl)
    as Hcalled.
  cbv zeta in Hcalled. cbn [Interaction.isModalSubmit modal] in Hcalled.
  assert (Hreg : DiscordHelper.registered self "*" ++ DiscordHelper.registered self "modal"
                 = [h_void; h_async]) by (vm_compute; reflexivity).
  rewrite Hreg in Hcalled.
  repeat split; assumption.
Defined.

(** A reply to an interaction of type 99 that is not repliable. *)
Lemma not_repliable_unknown_type_witness :
  let op := Operation.FollowUp (Message.mk (Some (js "late")) None None) in
  Interaction.isRepliable unknown_type = false
  /\ truthy_str (InteractionType (Interaction.type unknown_type)) = false
  /\ exists error,
       (run (Operation.perform op unknown_type) 0 (helper unknown_type)).2
       = Throw (VErr error)
       /\ message error
          = js "Interaction of type " ++ quote ++ js "unknown" ++ quote
            ++ js " is not repliable".
Proof.
  intros op.
  assert (Hno : Interaction.isRepliable unknown_type = false) by reflexivity.
  assert (Hname : truthy_str (InteractionType (Interaction.type unknown_type)) = false)
    by reflexivity.
  destruct (not_repliable_unknown_type op unknown_type (helper unknown_type) 0 Hno Hname)
    as (error & Hres & Hmsg & _).
  split; [assumption|]. split; [assumption|]. exists error. split; assumption.
Defined.

(** A deferred acknowledgment that fails after 7 ms: the edit is not
    sent. *)
Lemma defer_then_edit_witness :
  let message := Message.mk (Some (js "Done!")) None None in
  let out := run (DiscordHelper.deferReply failing_defer None;;
                  DiscordHelper.editReply failing_defer message)
                 0 (helper failing_defer) in
  Interaction.isRepliable failing_defer = true
  /\ is_ok out.2 = false
  /\ platform_calls (trace out.1.1) = [(call_deferReply, DeferOptions.payload None)]
  /\ DiscordHelper.response out.1.2 = VNull.
Proof.
  intros message out.
  assert (Hrep : Interaction.isRepliable failing_defer = true) by reflexivity.
  pose proof (defer_then_edit failing_defer None message (helper failing_defer) 0 Hrep)
    as Hseq.
  cbv zeta in Hseq. cbn [failing_defer Interaction.deferReply settles_with] in Hseq.
  destruct Hseq as (Hres & Hcalls & Hresp).
  repeat split; assumption.
Defined.

End FurtherRuns.
